(** * databroker.assets.column_hdf5: the column-oriented HDF5 asset registry

    A shallow embedding of [src/databroker/assets/column_hdf5.py] and the
    properties of its addressing scheme, its insertion paths and its
    cached retrieval.

    Modelling conventions.
    - Python [str] is [string]; [bytes] produced by [encode('utf-8')] of a
      string is the same byte sequence, so [encode]/[decode] are the
      identity on the payload and only the tag ([Bytes]) records the type.
    - A Python [dict] used as a keyword table is a [gmap string _]; the
      iteration order of a dict is the traversal order of the map.  It is
      observable only in which columns were already extended when an
      append stops on a missing column.
    - The directory [datum_col] is a flat map from path to HDF5 file; an
      HDF5 file is a flat map from dataset name to a one-dimensional
      dataset.  Dataset dtypes are not tracked.
    - [uuid.uuid4()] draws from a stream [uuid4 : nat -> string]; the world
      carries the position in the stream.
    - Exceptions are values of [exn]; a raising computation returns the
      world as it was left. *)

From Stdlib Require Import Ascii String.
From stdpp Require Import base option list strings gmap fin_maps fin_sets.

(** ** Strings: [in], [partition], [format] *)

Module Str.

(** [sep in s] for a one-character separator. *)
Fixpoint contains (sep : ascii) (s : string) : bool :=
  match s with
  | EmptyString => false
  | String c s' => if decide (c = sep) then true else contains sep s'
  end.

(** [s.partition(sep)] for a one-character separator: the part before
    the first occurrence, the separator, the part after it; when the
    separator does not occur, [(s, '', '')]. *)
Fixpoint partition (sep : ascii) (s : string) : string * string * string :=
  match s with
  | EmptyString => (EmptyString, EmptyString, EmptyString)
  | String c s' =>
      if decide (c = sep) then (EmptyString, String sep EmptyString, s')
      else let '(h, m, t) := partition sep s' in (String c h, m, t)
  end.

Definition slash : ascii := "/"%char.

(** ['{}/{}'.format(a, b)] and [f'{a}/{b}']. *)
Definition format_slash (a b : string) : string := a +:+ String slash b.

(** [f'{col}/{uid}.h5']. *)
Definition format_h5 (col uid : string) : string :=
  col +:+ String slash (uid +:+ ".h5").

End Str.

(** ** Exceptions *)

Inductive exn : Type :=
  | DatumNotFound                 (* class DatumNotFound(Exception) *)
  | RuntimeError                  (* bare [raise] with no active exception *)
  | KeyError (key : string)       (* h5py / pandas lookup of a missing name *)
  | ValueError                    (* h5py name clash, pandas ragged columns,
                                     tuple unpacking of a wrong length *)
  | OSError (path : string)       (* h5py.File on a missing file *)
  | LookupFailed (uid : string).  (* whatever [get_spec_handler] raises *)

#[global] Instance exn_eq_dec : EqDecision exn.
Proof. solve_decision. Defined.

(** ** Data model *)

(** One cell of a dataset or of a keyword table. *)
Inductive scalar : Type :=
  | Num (z : Z)
  | Bytes (s : string)
  | NaN.

#[global] Instance scalar_eq_dec : EqDecision scalar.
Proof. solve_decision. Defined.

(** What a handler receives for one keyword: a cell of the selected row,
    or a whole column slice when the label selects several rows. *)
Inductive pyval : Type :=
  | Scalar (c : scalar)
  | Series (cs : list scalar).

#[global] Instance pyval_eq_dec : EqDecision pyval.
Proof. solve_decision. Defined.

Abbreviation kwargs := (gmap string scalar).
Abbreviation dataset := (list scalar).
Abbreviation h5file := (gmap string dataset).
Abbreviation filesystem := (gmap string h5file).

(** [pd.DataFrame]: a number of rows and named columns. *)
Record DataFrame : Type := mkDataFrame {
  df_len : nat;
  df_columns : gmap string (list scalar)
}.

(** The frame after [set_index('datum_id')]: the decoded labels, with
    [None] for a cell that [.str.decode] maps to NaN, and the other
    columns. *)
Record IndexedFrame : Type := mkIndexedFrame {
  if_index : list (option string);
  if_columns : gmap string (list scalar)
}.

#[global] Instance IndexedFrame_eq_dec : EqDecision IndexedFrame.
Proof. solve_decision. Defined.

(** A resource document; only [uid] is read by this module. *)
Record Resource : Type := mkResource {
  uid : string;
  spec : string;
  root : string;
  resource_path : string
}.

Inductive resource_arg : Type :=
  | ByUid (u : string)
  | ByDoc (doc : Resource).

(** Modelled from the spec: [doc_or_uid_to_uid] is imported from
    [databroker.assets.core], which is not part of the sources; the
    specification says it "resolves [resource] to a [uid]". *)
Definition doc_or_uid_to_uid (r : resource_arg) : string :=
  match r with
  | ByUid u => u
  | ByDoc doc => uid doc
  end.

(** The dict returned by [insert_datum]. *)
Record Datum : Type := mkDatum {
  resource : string;
  datum_id : string;
  datum_kwargs : kwargs
}.

(** ** The world of the writers and its monad *)

Record world : Type := mkWorld {
  fs : filesystem;
  uuid_next : nat
}.

Inductive outcome (A : Type) : Type :=
  | Ok (a : A) (w : world)
  | Raise (e : exn) (w : world).
Arguments Ok {A} a w.
Arguments Raise {A} e w.

Definition M (A : Type) : Type := world → outcome A.

#[global] Instance M_ret : MRet M := λ A a w, Ok a w.
#[global] Instance M_bind : MBind M := λ A B f m w,
  match m w with
  | Ok a w' => f a w'
  | Raise e w' => Raise e w'
  end.

Definition raise {A} (e : exn) : M A := λ w, Raise e w.
Definition put_file (path : string) (f : h5file) : M unit :=
  λ w, Ok () (mkWorld (<[path := f]> (fs w)) (uuid_next w)).

(** Runs [f] on each element in order, stopping at the first raise. *)
Fixpoint mapM_ {A} (f : A → M unit) (l : list A) : M unit :=
  match l with
  | [] => mret ()
  | a :: l' => f a ≫= λ _, mapM_ f l'
  end.

Fixpoint mapM {A B} (f : A → M B) (l : list A) : M (list B) :=
  match l with
  | [] => mret []
  | a :: l' => b ← f a; bs ← mapM f l'; mret (b :: bs)
  end.

(** Pure code that may raise. *)
#[global] Instance exn_bind : MBind (sum exn) := λ A B f r,
  match r with
  | inl e => inl e
  | inr a => f a
  end.

Definition lift {A} (r : exn + A) : M A :=
  match r with
  | inl e => raise e
  | inr a => mret a
  end.

(** ** pandas: building a frame *)

(** What callers hand to [pd.DataFrame]: a list of row dicts, or a dict
    of columns. *)
Inductive frame_src : Type :=
  | Records (rows : list kwargs)
  | Columns (cols : gmap string (list scalar)).

(** The column [k] of a list of row dicts; a row without [k] gives NaN. *)
Definition column_of (k : string) (rows : list kwargs) : list scalar :=
  (λ r, default NaN (r !! k)) <$> rows.

Definition keys_of (rows : list kwargs) : gset string :=
  ⋃ (dom <$> rows).

Definition frame_of_records (rows : list kwargs) : DataFrame :=
  mkDataFrame (length rows)
              (set_to_map (λ k, (k, column_of k rows)) (keys_of rows)).

(** The lengths of all columns when they agree ([0] for no column). *)
Definition common_length (cols : gmap string (list scalar)) : option nat :=
  match map_to_list cols with
  | [] => Some 0
  | (_, c) :: _ =>
      if decide (map_Forall (λ _ c', length c' = length c) cols)
      then Some (length c) else None
  end.

(** [pd.DataFrame(src)]; ragged columns raise [ValueError]. *)
Definition pd_DataFrame (src : frame_src) : exn + DataFrame :=
  match src with
  | Records rows => inr (frame_of_records rows)
  | Columns cols =>
      match common_length cols with
      | Some n => inr (mkDataFrame n cols)
      | None => inl ValueError
      end
  end.

(** ** h5py: files held in the world *)

Definition is_file (path : string) : M bool :=
  λ w, Ok (bool_decide (is_Some (fs w !! path))) w.

(** [h5py.File(path, 'w')]: creates the file, truncating an existing one. *)
Definition h5_truncate (path : string) : M unit := put_file path ∅.

(** [fout.create_dataset(k, (len(v),), dtype=v.dtype, data=v, ...)]: a
    name already present in the file raises. *)
Definition h5_create_dataset (path k : string) (v : dataset) : M unit :=
  λ w, match fs w !! path with
       | None => Raise (OSError path) w
       | Some fout =>
           match fout !! k with
           | Some _ => Raise ValueError w
           | None => put_file path (<[k := v]> fout) w
           end
       end.

(** Modelled from the spec: [append] is imported from
    [databroker.headersource.hdf5], which is not part of the sources;
    the specification's [append_row] "appends one row" to a column, so
    [append(dset, data)] extends the dataset by [data] at its end. *)
Definition append (dset : dataset) (data : list scalar) : dataset :=
  dset ++ data.

(** [append(fout[k], data)] on the file at [path]; [fout[k]] raises
    [KeyError] for a name that is not in the file. *)
Definition h5_append (path k : string) (data : list scalar) : M unit :=
  λ w, match fs w !! path with
       | None => Raise (OSError path) w
       | Some fout =>
           match fout !! k with
           | None => Raise (KeyError k) w
           | Some dset => put_file path (<[k := append dset data]> fout) w
           end
       end.

(** ** The writers *)

Section Writers.

(** The stream of identifiers drawn by [uuid.uuid4()]. *)
Variable uuid4 : nat → string.

(** Types of the arguments this module passes around without reading. *)
Context {ResourceCol KnownSpec : Type}.

(** [str(uuid.uuid4())] *)
Definition uuid_uuid4 : M string :=
  λ w, Ok (uuid4 (uuid_next w)) (mkWorld (fs w) (S (uuid_next w))).

(** [[str(uuid.uuid4()) for j in range(n)]] *)
Fixpoint uuid_uuid4_n (n : nat) : M (list string) :=
  match n with
  | 0 => mret []
  | S n' => d ← uuid_uuid4; ds ← uuid_uuid4_n n'; mret (d :: ds)
  end.

Definition bulk_register_datum_table
    (datum_col : string) (resource_col : option ResourceCol)
    (resource_uid : string) (dkwargs_table : DataFrame)
    (validate : bool) : M (list string) :=
  if validate then raise RuntimeError
  else
    d_ids ← uuid_uuid4_n (df_len dkwargs_table);
    let datum_ids := Str.format_slash resource_uid <$> d_ids in
    let path := Str.format_h5 datum_col resource_uid in
    h5_truncate path;;
    mapM_ (λ kv, h5_create_dataset path kv.1 kv.2)
          (map_to_list (df_columns dkwargs_table)
             ++ [("datum_id", Bytes <$> d_ids)]);;
    mret datum_ids.

Definition bulk_insert_datum
    (col : string) (resource : resource_arg) (datum_ids : list string)
    (datum_kwarg_list : frame_src) : M (list string) :=
  df ← lift (pd_DataFrame datum_kwarg_list);
  d_uids ← bulk_register_datum_table col None
             (doc_or_uid_to_uid resource) df false;
  mret d_uids.

(** [Path(datum_col) / Path(f'{resource}.h5')] names the file that
    [f'{datum_col}/{resource}.h5'] names in [bulk_register_datum_table]. *)
Definition insert_datum
    (datum_col : string) (resource : resource_arg) (datum_id : string)
    (datum_kwargs : kwargs) (known_spec : KnownSpec)
    (resource_col : ResourceCol) : M Datum :=
  let resource := doc_or_uid_to_uid resource in
  let p := Str.format_h5 datum_col resource in
  exists_ ← is_file p;
  d_uid ← (if exists_ : bool then
             d_id ← uuid_uuid4;
             let d_uid := Str.format_slash resource d_id in
             h5_append p "datum_id" [Bytes d_id];;
             mapM_ (λ kv, h5_append p kv.1 [kv.2])
                   (map_to_list datum_kwargs);;
             mret d_uid
           else
             let df := frame_of_records [datum_kwargs] in
             ds ← bulk_register_datum_table datum_col (Some resource_col)
                    resource df false;
             match ds with
             | [d_uid] => mret d_uid
             | _ => raise ValueError
             end);
  mret (mkDatum resource d_uid datum_kwargs).

(** [N] calls of [insert_datum] on one resource, one after the other;
    each call has its own [datum_id] argument and keyword table. *)
Definition insert_datums
    (datum_col : string) (resource : resource_arg)
    (calls : list (string * kwargs)) (known_spec : KnownSpec)
    (resource_col : ResourceCol) : M (list Datum) :=
  mapM (λ c, insert_datum datum_col resource c.1 c.2 known_spec resource_col)
       calls.

(** *** Vocabulary for the statements *)

(** The identifiers drawn by [n] calls starting at position [i]. *)
Definition drawn (i n : nat) : list string := uuid4 <$> seq i n.

(** The path of a resource's container. *)
Definition h5_path (datum_col resource_uid : string) : string :=
  Str.format_h5 datum_col resource_uid.

(** What bulk registration leaves in the container. *)
Definition container (table : DataFrame) (d_ids : list string) : h5file :=
  <["datum_id" := Bytes <$> d_ids]> (df_columns table).

(** The cells one [insert_datum] adds to column [k]. *)
Definition appended (d_id : string) (kw : kwargs) (k : string) : list scalar :=
  if decide (k = "datum_id") then [Bytes d_id] else option_list (kw !! k).

(** The container after one appended row. *)
Definition extend (d_id : string) (kw : kwargs) (f : h5file) : h5file :=
  map_imap (λ k dset, Some (dset ++ appended d_id kw k)) f.

(** All rows have the key set [K]. *)
Definition same_keys (K : gset string) (rows : list kwargs) : Prop :=
  Forall (λ kw : kwargs, dom kw = K) rows.

(** The container slot [o] of a resource holds exactly the rows [rows]
    under the identifiers [ids]: no container when there are no rows yet,
    else the container that registration of [rows] with [ids] writes. *)
Definition materialized_as (o : option h5file) (ids : list string)
    (rows : list kwargs) : Prop :=
  match rows with
  | [] => o = None ∧ ids = []
  | _ :: _ =>
      o = Some (container (frame_of_records rows) ids)
      ∧ length ids = length rows
  end.

End Writers.

(** ** pandas: reading a file into an indexed frame, and [loc] *)

(** [.str.decode('utf-8')] on one cell: non-bytes cells become NaN. *)
Definition decode_utf8 (c : scalar) : option string :=
  match c with
  | Bytes s => Some s
  | _ => None
  end.

(** [[
      df = pd.DataFrame({k: fin[k] for k in fin})
      df['datum_id'] = df['datum_id'].str.decode('utf-8')
      df = df.set_index('datum_id')
    ]] *)
Definition read_frame (fin : h5file) : exn + IndexedFrame :=
  match common_length fin with
  | None => inl ValueError
  | Some _ =>
      match fin !! "datum_id" with
      | None => inl (KeyError "datum_id")
      | Some ids =>
          inr (mkIndexedFrame (decode_utf8 <$> ids) (delete "datum_id" fin))
      end
  end.

(** [with h5py.File(path, 'r') as fin: ...] *)
Definition h5_read_frame (files : filesystem) (path : string)
    : exn + IndexedFrame :=
  match files !! path with
  | None => inl (OSError path)
  | Some fin => read_frame fin
  end.

(** The cells of [col] in the rows labelled [d]. *)
Fixpoint select (d : string) (index : list (option string))
    (col : list scalar) : list scalar :=
  match index, col with
  | i :: index', c :: col' =>
      if decide (i = Some d) then c :: select d index' col'
      else select d index' col'
  | _, _ => []
  end.

(** How many rows carry the label [d]. *)
Definition label_count (d : string) (index : list (option string)) : nat :=
  length (filter (λ i, i = Some d) index).

(** [dict(df.loc[d])]: no row raises [KeyError]; one row gives its cells;
    several rows give, per column, the cells of those rows. *)
Definition loc_dict (df : IndexedFrame) (d : string)
    : exn + gmap string pyval :=
  match label_count d (if_index df) with
  | 0 => inl (KeyError d)
  | 1 => inr ((λ col, Scalar (default NaN (head (select d (if_index df) col))))
                <$> if_columns df)
  | _ => inr ((λ col, Series (select d (if_index df) col)) <$> if_columns df)
  end.

(** ** The materialization cache

    [datum_cache] is whatever mapping the registry hands in; [retrieve]
    uses [datum_cache[k]] and [datum_cache[k] = v] only.  [cache_view] is
    the set of entries a cache currently holds: reading an entry returns
    it and may reorder the cache but not change what it holds; storing an
    entry may discard entries, and adds nothing but the entry stored. *)
Class DatumCache (C : Type) : Type := {
  cache_view : C → gmap string IndexedFrame;
  cache_getitem : string → C → option IndexedFrame * C;
  cache_setitem : string → IndexedFrame → C → C;
  cache_getitem_value : ∀ k c, (cache_getitem k c).1 = cache_view c !! k;
  cache_getitem_view : ∀ k c, cache_view (cache_getitem k c).2 = cache_view c;
  cache_setitem_view : ∀ k v c,
    cache_view (cache_setitem k v c) ⊆ <[k := v]> (cache_view c)
}.

(** A plain [dict] as cache. *)
#[global, refine] Instance dict_cache : DatumCache (gmap string IndexedFrame) := {|
  cache_view c := c;
  cache_getitem k c := (c !! k, c);
  cache_setitem k v c := <[k := v]> c
|}.
Proof. all: done. Defined.

(** Modelled from the spec: the registry's own cache class is not part of
    the sources ([Registry.__init__] only sets its [max_size] to 100).
    The specification describes it as "bounded by a configurable maximum
    entry count; when the bound is exceeded, the cache discards entries to
    return to capacity", preferring a recency-based policy.  Entries are
    kept most recently used first. *)
Record BoundedCache : Type := mkBoundedCache {
  max_size : nat;
  entries : list (string * IndexedFrame)
}.

Definition bounded_view (c : BoundedCache) : gmap string IndexedFrame :=
  list_to_map (entries c).

(** Puts [(k, v)] in front and drops the older bindings of [k]. *)
Definition touch (k : string) (v : IndexedFrame)
    (l : list (string * IndexedFrame)) : list (string * IndexedFrame) :=
  (k, v) :: filter (λ e, e.1 ≠ k) l.

Definition bounded_getitem (k : string) (c : BoundedCache)
    : option IndexedFrame * BoundedCache :=
  match bounded_view c !! k with
  | Some v => (Some v, mkBoundedCache (max_size c) (touch k v (entries c)))
  | None => (None, c)
  end.

Definition bounded_setitem (k : string) (v : IndexedFrame) (c : BoundedCache)
    : BoundedCache :=
  mkBoundedCache (max_size c) (take (max_size c) (touch k v (entries c))).

(** ** The readers *)

(** What [retrieve] touches, in order. *)
Inductive event : Type :=
  | EvHandlerLookup (r_uid : string)
  | EvCacheGet (r_uid : string)
  | EvFileRead (path : string)
  | EvCacheSet (r_uid : string)
  | EvHandlerCall (r_uid : string).

Record retrieval (C R : Type) : Type := mkRetrieval {
  ret_value : exn + R;
  ret_cache : C;
  ret_trace : list event
}.
Arguments mkRetrieval {C R} _ _ _.
Arguments ret_value {C R} _.
Arguments ret_cache {C R} _.
Arguments ret_trace {C R} _.

Section Readers.

Context {C : Type} `{!DatumCache C}.
Context {R Logger : Type}.

(** A handler: called with keyword arguments, returns or raises. *)
Definition handler : Type := gmap string pyval → exn + R.

(** [return handler(...)], the keywords being [dict(df.loc[d_uid])]. *)
Definition call_handler (h : handler) (df : IndexedFrame) (r_uid d_uid : string)
    (cache : C) (trace : list event) : retrieval C R :=
  match loc_dict df d_uid with
  | inl e => mkRetrieval (inl e) cache trace
  | inr row => mkRetrieval (h row) cache (trace ++ [EvHandlerCall r_uid])
  end.

Definition retrieve
    (col datum_id : string) (datum_cache : C)
    (get_spec_handler : string → exn + handler) (logger : Logger)
    (files : filesystem) : retrieval C R :=
  if negb (Str.contains Str.slash datum_id)
  then mkRetrieval (inl DatumNotFound) datum_cache []
  else
    let '(r_uid, _, d_uid) := Str.partition Str.slash datum_id in
    match get_spec_handler r_uid with
    | inl e => mkRetrieval (inl e) datum_cache [EvHandlerLookup r_uid]
    | inr h =>
        match cache_getitem r_uid datum_cache with
        | (Some df, cache) =>
            call_handler h df r_uid d_uid cache
              [EvHandlerLookup r_uid; EvCacheGet r_uid]
        | (None, cache) =>
            let path := Str.format_h5 col r_uid in
            match h5_read_frame files path with
            | inl e =>
                mkRetrieval (inl e) cache
                  [EvHandlerLookup r_uid; EvCacheGet r_uid; EvFileRead path]
            | inr df =>
                call_handler h df r_uid d_uid (cache_setitem r_uid df cache)
                  [EvHandlerLookup r_uid; EvCacheGet r_uid;
                   EvFileRead path; EvCacheSet r_uid]
            end
        end
    end.

Definition resource_given_datum_id
    (col datum_id : string) (datum_cache : C) (logger : Logger) : string :=
  let '(r_uid, _, d_uid) := Str.partition Str.slash datum_id in
  r_uid.

(** *** Vocabulary for the statements *)

(** Every entry the cache holds is what reading the resource's
    container would give now. *)
Definition coherent (files : filesystem) (col : string) (cache : C) : Prop :=
  ∀ r df, cache_view cache !! r = Some df →
          h5_read_frame files (Str.format_h5 col r) = inr df.

(** Retrieval as the specification words it, with no cache in the way:
    split the datum id, resolve the handler, read the whole container,
    look the row up, call the handler. *)
Definition retrieve_uncached (col datum_id : string)
    (get_spec_handler : string → exn + handler)
    (files : filesystem) : exn + R :=
  if negb (Str.contains Str.slash datum_id) then inl DatumNotFound
  else
    let '(r_uid, _, d_uid) := Str.partition Str.slash datum_id in
    h ← get_spec_handler r_uid;
    df ← h5_read_frame files (Str.format_h5 col r_uid);
    row ← loc_dict df d_uid;
    h row.

End Readers.

(** ** Iterating over a resource *)

(** What [get_datum_by_res_gen] yields: the ['datum_id'] entry is the row's
    index label (the decoded local id, or NaN), not the full datum id. *)
Record YieldedDatum : Type := mkYieldedDatum {
  y_datum_id : option string;
  y_resource : string;
  y_datum_kwargs : kwargs
}.

#[global] Instance YieldedDatum_eq_dec : EqDecision YieldedDatum.
Proof. solve_decision. Defined.

(** [dict(r)] for the [i]-th row [r] of [df.iterrows()]. *)
Definition row_at (df : IndexedFrame) (i : nat) : kwargs :=
  (λ col, default NaN (col !! i)) <$> if_columns df.

(** The generator run to exhaustion.  Its body reads the whole container
    before the first [yield], so what it yields is fixed by the files at
    the first [next]; a failing read raises there. *)
Definition get_datum_by_res_gen (datum_col resource_uid : string)
    (files : filesystem) : exn + list YieldedDatum :=
  let col := datum_col in
  let r_uid := resource_uid in
  df ← h5_read_frame files (Str.format_h5 col r_uid);
  inr (imap (λ i label, mkYieldedDatum label resource_uid (row_at df i))
            (if_index df)).

(** *** Vocabulary for the statements *)

(** A row dict seen through the columns [keys] of its table: the keys it
    lacks read as NaN. *)
Definition filled (keys : gset string) (kw : kwargs) : kwargs :=
  set_to_map (λ k, (k, default NaN (kw !! k))) keys.

(** The [i]-th row of a frame, as a dict. *)
Definition table_row (table : DataFrame) (i : nat) : kwargs :=
  (λ col, default NaN (col !! i)) <$> df_columns table.

(** A frame whose columns all have the frame's length. *)
Definition rectangular (table : DataFrame) : Prop :=
  ∀ k c, df_columns table !! k = Some c → length c = df_len table.

(** The world an outcome leaves. *)
Definition world_of {A} (o : outcome A) : world :=
  match o with
  | Ok _ w => w
  | Raise _ w => w
  end.

(** ** Several retrievals through one cache *)

Section RetrieveEach.

Context {C : Type} `{!DatumCache C}.
Context {R Logger : Type}.

(** [[retrieve(id) for id in datum_ids]] with the cache each call leaves
    handed to the next. *)
Fixpoint retrieve_each (col : string) (datum_ids : list string)
    (datum_cache : C) (get_spec_handler : string → exn + handler (R:=R))
    (logger : Logger) (files : filesystem) : list (exn + R) * C :=
  match datum_ids with
  | [] => ([], datum_cache)
  | datum_id :: rest =>
      let r := retrieve col datum_id datum_cache get_spec_handler logger files in
      let '(vs, cache) :=
        retrieve_each col rest (ret_cache r) get_spec_handler logger files in
      (ret_value r :: vs, cache)
  end.

End RetrieveEach.

(** * mdsweb.server.utils: the memoizing [Indexable]

    [Indexable] wraps an iterator and remembers what it has drawn from
    it.  The iterator is modelled by the finite list of what it has still
    to give; an endless iterator is outside this model. *)

Module Indexable.

(** What list indexing raises. *)
Inductive error : Type :=
  | IndexError   (* list index out of range *)
  | TypeError    (* [None - int] *)
  | ValueError.  (* slice step cannot be zero *)

(** The argument of [__getitem__]: an int or a [slice(start, stop, step)]. *)
Inductive index : Type :=
  | Int (i : Z)
  | Slice (start stop step : option Z).

Section WithElements.

Context {A : Type}.

(** What indexing returns: one element, or a list for a slice. *)
Inductive item : Type :=
  | Elem (a : A)
  | Sub (l : list A).

(** ** Python lists: [l[i]] and [l[start:stop:step]] *)

(** [l[i]]: a negative index counts from the end. *)
Definition list_index (l : list A) (i : Z) : error + A :=
  let len := Z.of_nat (length l) in
  let j := if (i <? 0)%Z then (i + len)%Z else i in
  if ((j <? 0) || (len <=? j))%Z then inl IndexError
  else match l !! Z.to_nat j with
       | Some a => inr a
       | None => inl IndexError
       end.

(** Clamping of a given slice bound to a list of length [len]. *)
Definition adjust (len step v : Z) : Z :=
  if (v <? 0)%Z then
    let v' := (v + len)%Z in
    if (v' <? 0)%Z then (if (step <? 0)%Z then -1 else 0)%Z else v'
  else if (len <=? v)%Z then (if (step <? 0)%Z then len - 1 else len)%Z
  else v.

(** How many indices [range(start, stop, step)] has, bounds clamped. *)
Definition slice_count (start stop step : Z) : Z :=
  if (step <? 0)%Z then
    if (stop <? start)%Z then ((start - stop - 1) / (- step) + 1)%Z else 0%Z
  else
    if (start <? stop)%Z then ((stop - start - 1) / step + 1)%Z else 0%Z.

(** [l[start:stop:step]] *)
Definition list_slice (l : list A) (start stop step : option Z)
    : error + list A :=
  let step := default 1%Z step in
  if (step =? 0)%Z then inl ValueError
  else
    let len := Z.of_nat (length l) in
    let first :=
      match start with
      | None => if (step <? 0)%Z then (len - 1)%Z else 0%Z
      | Some v => adjust len step v
      end in
    let last :=
      match stop with
      | None => if (step <? 0)%Z then (-1)%Z else len
      | Some v => adjust len step v
      end in
    inr (omap (λ k, l !! Z.to_nat (first + Z.of_nat k * step))
              (seq 0 (Z.to_nat (slice_count first last step)))).

(** [l[index]] *)
Definition list_getitem (l : list A) (idx : index) : error + item :=
  match idx with
  | Int i => sum_map id Elem (list_index l i)
  | Slice start stop step => sum_map id Sub (list_slice l start stop step)
  end.

(** ** The class *)

(** [self.it] (what the iterator has still to give) and
    [self.already_computed]. *)
Record t : Type := mk {
  it : list A;
  already_computed : list A
}.

Definition __init__ (xs : list A) : t := mk xs [].

(** One [next] on a generator made by [__iter__]: draw an element from
    [self.it], append it to [already_computed], yield it; [None] is
    [StopIteration].  All generators of one object share its state. *)
Definition next (self : t) : option A * t :=
  match it self with
  | [] => (None, self)
  | elt :: rest => (Some elt, mk rest (already_computed self ++ [elt]))
  end.

(** [list(self)]: a generator of [__iter__] run until it stops. *)
Fixpoint run_iter (remaining : list A) (computed : list A) : list A * t :=
  match remaining with
  | [] => ([], mk [] computed)
  | elt :: rest =>
      let '(ys, self) := run_iter rest (computed ++ [elt]) in
      (elt :: ys, self)
  end.

Definition __iter__ (self : t) : list A * t :=
  run_iter (it self) (already_computed self).

(** [index.stop], or the index itself when it has no [stop]. *)
Definition max_idx (idx : index) : option Z :=
  match idx with
  | Int i => Some i
  | Slice _ stop _ => stop
  end.

Definition __getitem__ (idx : index) (self : t) : (error + item) * t :=
  match max_idx idx with
  | None => (inl TypeError, self)
  | Some m =>
      let n := (m - Z.of_nat (length (already_computed self)) + 1)%Z in
      let self' :=
        if (0 <? n)%Z
        then mk (drop (Z.to_nat n) (it self))
                (already_computed self ++ take (Z.to_nat n) (it self))
        else self in
      (list_getitem (already_computed self') idx, self')
  end.

(** ** Vocabulary for the statements *)

(** The whole sequence: what was computed, then what is still to come. *)
Definition contents (self : t) : list A :=
  already_computed self ++ it self.

End WithElements.

Arguments item : clear implicits.
Arguments t : clear implicits.

End Indexable.

(** ** A small registry to run the code on *)

Module Sample.

(** A stand-in for the identifier stream: [u0], [u00], [u000], ... *)
Fixpoint zeros (n : nat) : string :=
  match n with
  | 0 => ""
  | S n' => String "0"%char (zeros n')
  end.

Definition uuid4 (n : nat) : string := String "u"%char (zeros (S n)).

(** A handler that materializes a datum as its keyword arguments. *)
Definition echo : handler (R := gmap string pyval) := λ row, inr row.

Definition get_spec_handler (r_uid : string)
    : exn + handler (R := gmap string pyval) :=
  inr echo.

Definition empty_world : world := mkWorld ∅ 0.

(** The container of resource [R] after rows [v=10] and [v=20]. *)
Definition two_rows : filesystem :=
  {[ "db/R.h5" := {[ "v" := [Num 10; Num 20];
                     "datum_id" := [Bytes "u0"; Bytes "u00"] ]} ]}.

Definition cold : gmap string IndexedFrame := ∅.

(** The world after one bulk insertion of the row [v=1] for resource [R]. *)
Definition once_bulk : world :=
  mkWorld {[ "db/R.h5" := {[ "v" := [Num 1]; "datum_id" := [Bytes "u0"] ]} ]} 1.

(** The world after [insert_datum] of [v=10] for resource [R]. *)
Definition one_row : world :=
  mkWorld {[ "db/R.h5" := {[ "v" := [Num 10]; "datum_id" := [Bytes "u0"] ]} ]} 1.

End Sample.

(** * Properties *)

(** ** The addressing scheme *)

Module StrFacts.
Import Str.

Lemma partition_no_sep sep s :
  contains sep s = false → partition sep s = (s, EmptyString, EmptyString).
Proof.
  induction s as [|c s IH]; simpl; [done|].
  case_decide; [done|]. intros Hs. by rewrite (IH Hs).
Qed.

Lemma partition_app sep a b :
  contains sep a = false →
  partition sep (a +:+ String sep b) = (a, String sep EmptyString, b).
Proof.
  induction a as [|c a IH]; simpl.
  - intros _. by rewrite decide_True.
  - case_decide; [done|]. intros Ha. by rewrite (IH Ha).
Qed.

Lemma contains_app sep a b :
  contains sep (a +:+ String sep b) = true.
Proof.
  induction a as [|c a IH]; simpl.
  - by rewrite decide_True.
  - by case_decide.
Qed.

(** The first component of [partition] is the longest separator-free
    prefix: it has no separator, and it is followed in [s] by nothing
    or by a separator. *)
Lemma partition_head sep s :
  let r := (partition sep s).1.1 in
  contains sep r = false ∧
  (if contains sep s then ∃ rest, s = r +:+ String sep rest else r = s).
Proof.
  induction s as [|c s IH]; simpl; [done|].
  case_decide as Hc.
  - subst c. simpl. split; [done|]. by exists s.
  - destruct (partition sep s) as [[h m] t] eqn:Hp. simpl in *.
    destruct IH as [IH1 IH2]. split.
    + by rewrite decide_False.
    + destruct (contains sep s).
      * destruct IH2 as [rest ->]. by exists rest.
      * by rewrite IH2.
Qed.

Lemma format_slash_inj_r a b b' :
  format_slash a b = format_slash a b' → b = b'.
Proof.
  unfold format_slash. induction a as [|c a IH]; simpl; intros H.
  - by injection H.
  - injection H as H. by apply IH.
Qed.

End StrFacts.

(** ** Running the writers *)

Section WriterFacts.

Variable uuid4 : nat → string.
Context {ResourceCol KnownSpec : Type}.

Lemma uuid_uuid4_n_run n w :
  uuid_uuid4_n uuid4 n w
  = Ok (drawn uuid4 (uuid_next w) n) (mkWorld (fs w) (uuid_next w + n)).
Proof.
  revert w. induction n as [|n IH]; intros [files i]; simpl.
  - unfold mret, M_ret. by rewrite Nat.add_0_r.
  - unfold mbind, M_bind, uuid_uuid4 at 1. simpl. rewrite IH. simpl.
    unfold mret, M_ret, drawn. simpl. do 2 f_equal. lia.
Qed.

Lemma mapM__app {A} (f : A → M unit) l1 l2 w :
  mapM_ f (l1 ++ l2) w
  = match mapM_ f l1 w with
    | Ok _ w' => mapM_ f l2 w'
    | Raise e w' => Raise e w'
    end.
Proof.
  revert w. induction l1 as [|a l1 IH]; intros w; simpl; [done|].
  unfold mbind, M_bind. destruct (f a w); [apply IH | done].
Qed.

(** Creating datasets with distinct fresh names writes them all. *)
Lemma create_datasets_run path (l : list (string * dataset)) acc w :
  fs w !! path = Some acc →
  NoDup l.*1 →
  (∀ k, k ∈ l.*1 → acc !! k = None) →
  mapM_ (λ kv, h5_create_dataset path kv.1 kv.2) l w
  = Ok () (mkWorld (<[path := list_to_map l ∪ acc]> (fs w)) (uuid_next w)).
Proof.
  revert acc w. induction l as [|[k v] l IH]; intros acc [files i]; simpl.
  - intros Hacc _ _. unfold mret, M_ret. f_equal.
    rewrite (left_id_L ∅ (∪)). by rewrite insert_id.
  - intros Hacc Hnd Hfresh. apply NoDup_cons in Hnd as [Hk Hnd].
    unfold mbind, M_bind, h5_create_dataset at 1. simpl.
    rewrite Hacc, (Hfresh k) by (simpl; by left). unfold put_file. simpl.
    rewrite (IH (<[k := v]> acc)); simpl.
    + rewrite insert_insert_eq. do 2 f_equal.
      rewrite <- insert_union_l. rewrite <- insert_union_r; [done|].
      by apply not_elem_of_list_to_map_1.
    + by rewrite lookup_insert_eq.
    + done.
    + intros k' Hk'. rewrite lookup_insert_ne by (by intros ->).
      apply Hfresh. simpl. by right.
Qed.

(** Bulk registration of a table without a [datum_id] column. *)
Lemma bulk_register_run datum_col (rc : option ResourceCol) resource_uid table w :
  df_columns table !! "datum_id" = None →
  let d_ids := drawn uuid4 (uuid_next w) (df_len table) in
  bulk_register_datum_table uuid4 datum_col rc resource_uid table false w
  = Ok (Str.format_slash resource_uid <$> d_ids)
       (mkWorld (<[h5_path datum_col resource_uid := container table d_ids]> (fs w))
                (uuid_next w + df_len table)).
Proof.
  intros Hid d_ids. unfold bulk_register_datum_table.
  unfold mbind at 1, M_bind at 1. rewrite uuid_uuid4_n_run.
  unfold mbind at 1, M_bind at 1, h5_truncate, put_file at 1. simpl.
  unfold mbind at 1, M_bind at 1. rewrite mapM__app.
  erewrite create_datasets_run.
  2:{ simpl. apply lookup_insert_eq. }
  2:{ apply NoDup_fst_map_to_list. }
  2:{ intros; apply lookup_empty. }
  simpl. unfold mbind, M_bind, h5_create_dataset. simpl.
  rewrite lookup_insert_eq, list_to_map_to_list, (right_id_L ∅ (∪)), Hid.
  unfold put_file, mret, M_ret. simpl. by rewrite !insert_insert_eq.
Qed.

(** A table that has a [datum_id] column of its own makes the final
    [create_dataset] clash, after the table's columns were written. *)
Lemma bulk_register_clash datum_col (rc : option ResourceCol) resource_uid table w :
  is_Some (df_columns table !! "datum_id") →
  bulk_register_datum_table uuid4 datum_col rc resource_uid table false w
  = Raise ValueError
       (mkWorld (<[h5_path datum_col resource_uid := df_columns table]> (fs w))
                (uuid_next w + df_len table)).
Proof.
  intros [ids Hid]. unfold bulk_register_datum_table.
  unfold mbind at 1, M_bind at 1. rewrite uuid_uuid4_n_run.
  unfold mbind at 1, M_bind at 1, h5_truncate, put_file at 1. simpl.
  unfold mbind at 1, M_bind at 1. rewrite mapM__app.
  erewrite create_datasets_run.
  2:{ simpl. apply lookup_insert_eq. }
  2:{ apply NoDup_fst_map_to_list. }
  2:{ intros; apply lookup_empty. }
  simpl. unfold mbind, M_bind, h5_create_dataset. simpl.
  rewrite lookup_insert_eq, list_to_map_to_list, (right_id_L ∅ (∪)), Hid.
  by rewrite !insert_insert_eq.
Qed.

(** *** Frames built from row dicts *)

Lemma frame_columns_lookup rows k :
  df_columns (frame_of_records rows) !! k
  = if decide (k ∈ keys_of rows) then Some (column_of k rows) else None.
Proof.
  unfold frame_of_records. simpl. apply option_eq. intros col.
  rewrite lookup_set_to_map by (intros ?? _ _ Heq; exact Heq).
  case_decide as Hk; split.
  - intros (k' & _ & [= -> <-]). done.
  - intros [= <-]. by exists k.
  - intros (k' & Hk' & [= -> <-]). done.
  - done.
Qed.

Lemma keys_of_singleton (kw : kwargs) : keys_of [kw] = dom kw.
Proof. unfold keys_of. simpl. by rewrite (right_id_L ∅ (∪)). Qed.

Lemma frame_of_single_row (kw : kwargs) :
  df_columns (frame_of_records [kw]) = (λ v, [v]) <$> kw.
Proof.
  apply map_eq. intros k. rewrite frame_columns_lookup, keys_of_singleton.
  rewrite lookup_fmap. case_decide as Hk.
  - apply elem_of_dom in Hk as [v Hv]. unfold column_of. simpl. by rewrite Hv.
  - apply not_elem_of_dom in Hk. by rewrite Hk.
Qed.

(** Rows over one key set [K]: the frame has exactly the columns [K]. *)
Lemma keys_of_uniform (K : gset string) rows :
  rows ≠ [] → Forall (λ kw : kwargs, dom kw = K) rows → keys_of rows = K.
Proof.
  intros Hne Hall. unfold keys_of. apply set_eq. intros k.
  rewrite elem_of_union_list. split.
  - intros (X & HX & Hk). apply list_elem_of_fmap in HX as (kw & -> & Hkw).
    rewrite Forall_forall in Hall. by rewrite <- (Hall kw Hkw).
  - intros Hk. destruct rows as [|kw rows]; [done|].
    apply Forall_cons in Hall as [Hkw _]. exists (dom kw). split.
    + simpl. by left.
    + by rewrite Hkw.
Qed.

(** *** The append path *)

Lemma append_loop_run path (l : list (string * scalar)) (f : h5file) w :
  fs w !! path = Some f →
  NoDup l.*1 →
  (∀ k, k ∈ l.*1 → is_Some (f !! k)) →
  mapM_ (λ kv, h5_append path kv.1 [kv.2]) l w
  = Ok () (mkWorld
             (<[path := map_imap (λ k dset,
                  Some (dset ++ option_list (list_to_map (M:=kwargs) l !! k))) f]> (fs w))
             (uuid_next w)).
Proof.
  revert f w. induction l as [|[k v] l IH]; intros f [files i]; simpl.
  - intros Hf _ _. unfold mret, M_ret.
    replace (map_imap _ f) with f; [by rewrite insert_id|].
    apply map_eq. intros k. rewrite map_lookup_imap, lookup_empty.
    destruct (f !! k); simpl; [|done]. by rewrite (right_id_L [] (++)).
  - intros Hf Hnd Hin. apply NoDup_cons in Hnd as [Hk Hnd].
    destruct (Hin k) as [dset Hdset]; [by left|].
    unfold mbind, M_bind, h5_append at 1. simpl. rewrite Hf, Hdset.
    unfold put_file. simpl. rewrite (IH (<[k := append dset [v]]> f)); simpl.
    + rewrite insert_insert_eq. do 3 f_equal.
      apply map_eq. intros k'. rewrite !map_lookup_imap.
      destruct (decide (k' = k)) as [->|Hne].
      * rewrite !lookup_insert_eq, Hdset. simpl.
        rewrite not_elem_of_list_to_map_1 by done.
        simpl. by rewrite (right_id_L [] (++)).
      * by rewrite !lookup_insert_ne.
    + by rewrite lookup_insert_eq.
    + done.
    + intros k' Hk'. rewrite lookup_insert_ne by (by intros ->).
      apply Hin. by right.
Qed.

Lemma insert_datum_append_run datum_col res did (kw : kwargs)
    (ks : KnownSpec) (rc : ResourceCol) (f : h5file) w :
  let r := doc_or_uid_to_uid res in
  let d_id := uuid4 (uuid_next w) in
  fs w !! h5_path datum_col r = Some f →
  is_Some (f !! "datum_id") →
  kw !! "datum_id" = None →
  dom kw ⊆ dom f →
  insert_datum uuid4 datum_col res did kw ks rc w
  = Ok (mkDatum r (Str.format_slash r d_id) kw)
       (mkWorld (<[h5_path datum_col r := extend d_id kw f]> (fs w))
                (S (uuid_next w))).
Proof.
  intros r d_id Hf [ids Hids] Hkw Hdom. unfold insert_datum.
  fold r. fold (h5_path datum_col r).
  unfold mbind at 1, M_bind at 1, is_file. rewrite Hf.
  rewrite bool_decide_eq_true_2 by eauto.
  unfold mbind at 1 2, M_bind at 1 2, uuid_uuid4. simpl.
  unfold mbind at 1, M_bind at 1, h5_append at 1. simpl. rewrite Hf, Hids.
  unfold put_file at 1. simpl.
  unfold mbind at 1, M_bind at 1.
  erewrite append_loop_run.
  2:{ simpl. apply lookup_insert_eq. }
  2:{ apply NoDup_fst_map_to_list. }
  2:{ intros k Hk. apply list_elem_of_fmap in Hk as ([k' v] & -> & Hk).
      apply elem_of_map_to_list in Hk. simpl.
      assert (k' ≠ "datum_id") by congruence.
      rewrite lookup_insert_ne by done.
      apply elem_of_dom, Hdom, elem_of_dom. eauto. }
  simpl. unfold mret, M_ret. rewrite insert_insert_eq. do 3 f_equal.
  apply map_eq. intros k. unfold extend, appended.
  rewrite !map_lookup_imap, list_to_map_to_list.
  destruct (decide (k = "datum_id")) as [->|Hne].
  - rewrite lookup_insert_eq, Hids, Hkw. simpl.
    by rewrite (right_id_L [] (++)).
  - by rewrite lookup_insert_ne.
Qed.

(** *** The single-row bulk path *)

Lemma insert_datum_bulk_run datum_col res did (kw : kwargs)
    (ks : KnownSpec) (rc : ResourceCol) w :
  let r := doc_or_uid_to_uid res in
  let d_id := uuid4 (uuid_next w) in
  fs w !! h5_path datum_col r = None →
  kw !! "datum_id" = None →
  insert_datum uuid4 datum_col res did kw ks rc w
  = Ok (mkDatum r (Str.format_slash r d_id) kw)
       (mkWorld (<[h5_path datum_col r :=
                     container (frame_of_records [kw]) [d_id]]> (fs w))
                (S (uuid_next w))).
Proof.
  intros r d_id Hf Hkw. unfold insert_datum.
  fold r. fold (h5_path datum_col r).
  unfold mbind at 1, M_bind at 1, is_file. rewrite Hf.
  rewrite bool_decide_eq_false_2 by (by intros [? ?]).
  unfold mbind at 1 2, M_bind at 1 2.
  rewrite bulk_register_run.
  2:{ rewrite frame_of_single_row, lookup_fmap. by rewrite Hkw. }
  simpl. unfold mret, M_ret. do 2 f_equal. lia.
Qed.

End WriterFacts.

(** ** Reading frames and selecting rows *)

Section FrameFacts.

Lemma common_length_uniform (cols : gmap string (list scalar)) n :
  (∀ k c, cols !! k = Some c → length c = n) →
  is_Some (common_length cols).
Proof.
  intros Hlen. unfold common_length.
  destruct (map_to_list cols) as [|[k c] l] eqn:Hl; [by eexists|].
  assert (cols !! k = Some c) as Hk.
  { apply elem_of_map_to_list. rewrite Hl. by left. }
  rewrite decide_True; [by eexists|].
  intros k' c' Hk'. simpl. by rewrite (Hlen k c Hk), (Hlen k' c' Hk').
Qed.

Lemma label_count_absent d (index : list (option string)) :
  Some d ∉ index → label_count d index = 0.
Proof.
  unfold label_count. induction index as [|i index IH]; [done|].
  intros Hd. apply not_elem_of_cons in Hd as [Hne Hd].
  rewrite filter_cons_False by congruence. by apply IH.
Qed.

Lemma label_count_unique d (ids : list string) i :
  NoDup ids → ids !! i = Some d → label_count d (Some <$> ids) = 1.
Proof.
  unfold label_count. revert i.
  induction ids as [|x ids IH]; intros i Hnd Hi; [done|].
  apply NoDup_cons in Hnd as [Hx Hnd]. rewrite fmap_cons.
  destruct i as [|i]; simpl in Hi.
  - injection Hi as ->. rewrite filter_cons_True by done. simpl. f_equal.
    apply (label_count_absent d). intros Hd.
    apply list_elem_of_fmap in Hd as (y & [= ->] & Hy). done.
  - rewrite filter_cons_False; [by eapply IH|].
    intros [= ->]. apply Hx. by eapply list_elem_of_lookup_2.
Qed.

Lemma select_absent d (index : list (option string)) col :
  Some d ∉ index → select d index col = [].
Proof.
  revert col. induction index as [|i index IH]; intros [|c col] Hd; try done.
  apply not_elem_of_cons in Hd as [Hne Hd]. simpl.
  rewrite decide_False by congruence. by apply IH.
Qed.

Lemma select_unique d (ids : list string) col i c :
  NoDup ids → ids !! i = Some d → col !! i = Some c →
  select d (Some <$> ids) col = [c].
Proof.
  revert i col. induction ids as [|x ids IH]; intros i col Hnd Hi Hc; [done|].
  apply NoDup_cons in Hnd as [Hx Hnd].
  destruct col as [|c' col]; [done|]. rewrite fmap_cons. simpl.
  destruct i as [|i]; simpl in Hi, Hc.
  - injection Hi as ->. injection Hc as ->. rewrite decide_True by done.
    f_equal. apply select_absent. intros Hd.
    apply list_elem_of_fmap in Hd as (y & [= ->] & Hy). done.
  - rewrite decide_False; [by eapply IH|].
    intros [= ->]. apply Hx. by eapply list_elem_of_lookup_2.
Qed.

Lemma column_of_lookup k (rows : list kwargs) i kw :
  rows !! i = Some kw → column_of k rows !! i = Some (default NaN (kw !! k)).
Proof. intros Hi. unfold column_of. by rewrite list_lookup_fmap, Hi. Qed.

Lemma length_column_of k (rows : list kwargs) :
  length (column_of k rows) = length rows.
Proof. unfold column_of. by rewrite length_fmap. Qed.

(** The container written for rows [rows] with identifiers [ids] reads
    back as the frame indexed by [ids]. *)
Lemma read_container (rows : list kwargs) (ids : list string) :
  "datum_id" ∉ keys_of rows →
  length ids = length rows →
  read_frame (container (frame_of_records rows) ids)
  = inr (mkIndexedFrame (Some <$> ids) (df_columns (frame_of_records rows))).
Proof.
  intros Hid Hlen. unfold read_frame, container.
  destruct (common_length_uniform
              (<["datum_id" := Bytes <$> ids]> (df_columns (frame_of_records rows)))
              (length rows)) as [n ->].
  { intros k c. destruct (decide (k = "datum_id")) as [->|Hne].
    - rewrite lookup_insert_eq. intros [= <-]. by rewrite length_fmap.
    - rewrite lookup_insert_ne, frame_columns_lookup by done.
      case_decide; [|done]. intros [= <-]. apply length_column_of. }
  rewrite lookup_insert_eq, delete_insert_eq. f_equal. f_equal.
  - rewrite <- list_fmap_compose. by apply list_fmap_ext.
  - apply delete_id. rewrite frame_columns_lookup. by rewrite decide_False.
Qed.

(** Selecting the row of the [i]-th identifier gives the [i]-th row dict. *)
Lemma loc_dict_row (K : gset string) (rows : list kwargs) ids i d kw :
  Forall (λ kw : kwargs, dom kw = K) rows →
  NoDup ids →
  ids !! i = Some d →
  rows !! i = Some kw →
  loc_dict (mkIndexedFrame (Some <$> ids) (df_columns (frame_of_records rows))) d
  = inr (Scalar <$> kw).
Proof.
  intros Hall Hnd Hi Hkw. unfold loc_dict. cbn [if_index if_columns].
  rewrite (label_count_unique d ids i) by done. f_equal.
  assert (keys_of rows = K) as HK.
  { apply keys_of_uniform; [|done]. intros ->. done. }
  assert (dom kw = K) as Hdom.
  { rewrite Forall_forall in Hall. apply Hall. by eapply list_elem_of_lookup_2. }
  apply map_eq. intros k. rewrite !lookup_fmap, frame_columns_lookup, HK.
  case_decide as Hk.
  - simpl. erewrite select_unique; [|done..|by apply column_of_lookup].
    rewrite <- Hdom in Hk. apply elem_of_dom in Hk as [v Hv].
    by rewrite Hv.
  - rewrite <- Hdom in Hk. apply not_elem_of_dom in Hk. by rewrite Hk.
Qed.

End FrameFacts.

(** ** The bounded cache meets the cache laws *)

Lemma list_to_map_filter_ne {A} (k : string) (l : list (string * A)) :
  list_to_map (M := gmap string A) (filter (λ e, e.1 ≠ k) l)
  = delete k (list_to_map l).
Proof.
  induction l as [|[k' v'] l IH]; simpl.
  - by rewrite delete_empty.
  - destruct (decide (k' = k)) as [->|Hne].
    + rewrite filter_cons_False by (simpl; by intros ?).
      by rewrite IH, delete_insert_eq.
    + rewrite filter_cons_True by done. simpl.
      by rewrite IH, delete_insert_ne.
Qed.

Lemma list_to_map_take {A} (n : nat) (l : list (string * A)) :
  list_to_map (M := gmap string A) (take n l) ⊆ list_to_map l.
Proof.
  revert n. induction l as [|[k v] l IH]; intros [|n]; simpl;
    try apply map_empty_subseteq.
  by apply insert_mono.
Qed.

Lemma list_to_map_touch {A} (k : string) (v : A) (l : list (string * A)) :
  list_to_map (M := gmap string A) ((k, v) :: filter (λ e, e.1 ≠ k) l)
  = <[k := v]> (list_to_map l).
Proof. simpl. by rewrite list_to_map_filter_ne, insert_delete_eq. Qed.

#[global, refine] Instance bounded_cache : DatumCache BoundedCache := {|
  cache_view := bounded_view;
  cache_getitem := bounded_getitem;
  cache_setitem := bounded_setitem
|}.
Proof.
  - intros k c. unfold bounded_getitem. by destruct (bounded_view c !! k).
  - intros k c. unfold bounded_getitem.
    destruct (bounded_view c !! k) as [v|] eqn:Hk; [|done].
    unfold bounded_view, touch in *. simpl.
    by rewrite list_to_map_filter_ne, insert_delete_eq, insert_id.
  - intros k v c. unfold bounded_setitem, bounded_view, touch. simpl.
    rewrite <- (list_to_map_touch k v (entries c)). apply list_to_map_take.
Defined.

(** ** Cached retrieval *)

Section ReaderFacts.

Context {C : Type} `{!DatumCache C}.
Context {R Logger : Type}.

Lemma coherent_empty files col (cache : C) :
  cache_view cache = ∅ → coherent files col cache.
Proof. intros Hv r df. by rewrite Hv, lookup_empty. Qed.

Lemma call_handler_value (h : handler (R:=R)) df r_uid d_uid (cache : C) trace :
  ret_value (call_handler h df r_uid d_uid cache trace)
  = loc_dict df d_uid ≫= h.
Proof. unfold call_handler. by destruct (loc_dict df d_uid). Qed.

Lemma call_handler_cache (h : handler (R:=R)) df r_uid d_uid (cache : C) trace :
  ret_cache (call_handler h df r_uid d_uid cache trace) = cache.
Proof. unfold call_handler. by destruct (loc_dict df d_uid). Qed.

(** With a coherent cache, hit or miss, [retrieve] computes what the
    uncached retrieval computes. *)
Lemma retrieve_value_coherent col datum_id (cache : C)
    (gsh : string → exn + handler (R:=R)) (lg : Logger) files :
  coherent files col cache →
  ret_value (retrieve col datum_id cache gsh lg files)
  = retrieve_uncached col datum_id gsh files.
Proof.
  intros Hco. unfold retrieve, retrieve_uncached.
  destruct (negb _); [done|].
  destruct (Str.partition _ _) as [[r_uid sep] d_uid].
  destruct (gsh r_uid) as [e|h]; [done|]. simpl.
  pose proof (cache_getitem_value r_uid cache) as Hget.
  destruct (cache_getitem r_uid cache) as [[df|] cache']; simpl in Hget.
  - rewrite call_handler_value. symmetry in Hget.
    by rewrite (Hco _ _ Hget).
  - destruct (h5_read_frame _ _) as [e|df]; [done|].
    by rewrite call_handler_value.
Qed.

(** [retrieve] leaves a coherent cache coherent. *)
Lemma retrieve_cache_coherent col datum_id (cache : C)
    (gsh : string → exn + handler (R:=R)) (lg : Logger) files :
  coherent files col cache →
  coherent files col
    (ret_cache (retrieve col datum_id cache gsh lg files)).
Proof.
  intros Hco. unfold retrieve.
  destruct (negb _); [done|].
  destruct (Str.partition _ _) as [[r_uid sep] d_uid].
  destruct (gsh r_uid) as [e|h]; [done|].
  pose proof (cache_getitem_view r_uid cache) as Hview.
  destruct (cache_getitem r_uid cache) as [[df|] cache']; simpl in Hview.
  - rewrite call_handler_cache. intros r df'. rewrite Hview. apply Hco.
  - destruct (h5_read_frame _ _) as [e|df] eqn:Hread; simpl.
    + intros r df'. rewrite Hview. apply Hco.
    + rewrite call_handler_cache. intros r df' Hr.
      eapply lookup_weaken in Hr; [|apply cache_setitem_view].
      rewrite Hview in Hr.
      destruct (decide (r = r_uid)) as [->|Hne].
      * rewrite lookup_insert_eq in Hr. by injection Hr as <-.
      * rewrite lookup_insert_ne in Hr by done. by apply Hco.
Qed.

End ReaderFacts.

(** * The claims *)

(** ** Addressing *)

(** C4. For a resource uid without the separator and any local id,
    partitioning the datum id [uid/local] at the first separator gives back
    [(uid, "/", local)].  In particular every datum id returned by bulk
    registration for such a uid has the form [uid/local] and partitions to
    that uid. *)
Theorem split_of_make_datum_id (resource_uid d : string) :
  Str.contains Str.slash resource_uid = false →
  Str.partition Str.slash (Str.format_slash resource_uid d)
  = (resource_uid, String Str.slash "", d)
  ∧ ∀ (uuid4 : nat → string) (ResourceCol : Type) datum_col
      (rc : option ResourceCol) table validate w datum_ids w',
      bulk_register_datum_table uuid4 datum_col rc resource_uid table validate w
      = Ok datum_ids w' →
      length datum_ids = df_len table
      ∧ Forall (λ datum_id, ∃ local,
                  datum_id = Str.format_slash resource_uid local
                  ∧ Str.partition Str.slash datum_id
                    = (resource_uid, String Str.slash "", local))
               datum_ids.
Proof.
  intros Huid. split; [by apply StrFacts.partition_app|].
  intros uuid4 ResourceCol datum_col rc table validate w datum_ids w' Hrun.
  destruct validate; [done|].
  destruct (df_columns table !! "datum_id") eqn:Hid.
  - by rewrite bulk_register_clash in Hrun.
  - rewrite bulk_register_run in Hrun by done. injection Hrun as <- <-.
    split; [unfold drawn; by rewrite !length_fmap, length_seq|].
    apply Forall_fmap, Forall_forall. intros local _. simpl.
    exists local. split; [done|]. by apply StrFacts.partition_app.
Qed.

Lemma split_of_make_datum_id_witness :
  Str.partition Str.slash (Str.format_slash "R" "u0") = ("R", "/", "u0")
  ∧ bulk_register_datum_table Sample.uuid4 "db" (@None unit) "R"
      (frame_of_records [{[ "v" := Num 1 ]}; {[ "v" := Num 2 ]}]) false
      Sample.empty_world
    = Ok ["R/u0"; "R/u00"]
         (mkWorld {[ "db/R.h5" := {[ "v" := [Num 1; Num 2];
                                     "datum_id" := [Bytes "u0"; Bytes "u00"] ]} ]} 2).
Proof.
  split.
  - apply (split_of_make_datum_id "R" "u0"). reflexivity.
  - vm_compute. reflexivity.
Defined.

(** C10. [resource_given_datum_id] returns, for every string, its longest
    prefix free of the separator: the part before the first ["/"], or the
    whole string when there is none.  It never raises, and the result
    depends on the datum id alone: not on the column, the cache or the
    logger, and there is no store to look into. *)
Theorem resource_given_datum_id_total
    (C Logger : Type) (col datum_id : string) (datum_cache : C) (logger : Logger) :
  let r_uid := resource_given_datum_id col datum_id datum_cache logger in
  Str.contains Str.slash r_uid = false
  ∧ (if Str.contains Str.slash datum_id
     then ∃ rest, datum_id = r_uid +:+ String Str.slash rest
     else r_uid = datum_id)
  ∧ ∀ (C' Logger' : Type) col' (datum_cache' : C') (logger' : Logger'),
      resource_given_datum_id col' datum_id datum_cache' logger' = r_uid.
Proof.
  unfold resource_given_datum_id.
  pose proof (StrFacts.partition_head Str.slash datum_id) as Hhead.
  destruct (Str.partition Str.slash datum_id) as [[r_uid sep] d_uid].
  simpl in *. destruct Hhead as [H1 H2]. done.
Qed.

(** ** Retrieval of a malformed datum id *)

(** C5. For a datum id without the separator, [retrieve] raises
    [DatumNotFound] having touched nothing: the trace of handler lookups,
    cache accesses and file reads is empty and the cache is the one passed
    in. *)
Theorem retrieve_malformed
    (C : Type) `{!DatumCache C} (R Logger : Type)
    (col datum_id : string) (datum_cache : C)
    (get_spec_handler : string → exn + handler (R:=R)) (logger : Logger)
    (files : filesystem) :
  Str.contains Str.slash datum_id = false →
  retrieve col datum_id datum_cache get_spec_handler logger files
  = mkRetrieval (inl DatumNotFound) datum_cache [].
Proof. intros Hno. unfold retrieve. by rewrite Hno. Qed.

Lemma retrieve_malformed_witness :
  retrieve "db" "not-a-valid-id" Sample.cold Sample.get_spec_handler ()
    Sample.two_rows
  = mkRetrieval (inl DatumNotFound) Sample.cold [].
Proof. apply retrieve_malformed. reflexivity. Defined.

(** ** The validate flag and the ignored arguments *)

(** C8. Bulk registration with [validate] set raises, whatever the other
    arguments, and leaves the world as it was: no identifier is drawn and
    no file is touched. *)
Theorem bulk_register_validate_fails
    (uuid4 : nat → string) (ResourceCol : Type) (datum_col : string)
    (resource_col : option ResourceCol) (resource_uid : string)
    (dkwargs_table : DataFrame) (w : world) :
  bulk_register_datum_table uuid4 datum_col resource_col resource_uid
    dkwargs_table true w
  = Raise RuntimeError w.
Proof. reflexivity. Qed.

(** C9. The [datum_ids] argument of [bulk_insert_datum] and the [datum_id]
    argument of [insert_datum] are not read: two calls that differ in
    them only, from the same world (files and position in the identifier
    stream), have the same outcome, value and world. *)
Theorem insert_ignores_datum_ids
    (uuid4 : nat → string) (ResourceCol KnownSpec : Type)
    (col : string) (resource : resource_arg) (w : world) :
  (∀ (datum_ids datum_ids' : list string) (datum_kwarg_list : frame_src),
     bulk_insert_datum (ResourceCol:=ResourceCol) uuid4 col resource
       datum_ids datum_kwarg_list w
     = bulk_insert_datum (ResourceCol:=ResourceCol) uuid4 col resource
         datum_ids' datum_kwarg_list w)
  ∧ (∀ (datum_id datum_id' : string) (datum_kwargs : kwargs)
       (known_spec : KnownSpec) (resource_col : ResourceCol),
       insert_datum uuid4 col resource datum_id datum_kwargs known_spec
         resource_col w
       = insert_datum uuid4 col resource datum_id' datum_kwargs known_spec
           resource_col w).
Proof. split; reflexivity. Qed.

(** ** Bulk insertion on a materialized resource *)




(** ** Retrieval of an unknown local id *)

(** C6.  What the code does for a well-formed datum id [r_uid/d_uid]
    whose local id labels no row of the resource's table: the [KeyError]
    of the row lookup escapes; [DatumNotFound] is not raised. *)
Theorem retrieve_unknown_local_id
    (C : Type) `{!DatumCache C} (R Logger : Type)
    (col r_uid d_uid : string) (datum_cache : C)
    (get_spec_handler : string → exn + handler (R:=R)) (h : handler)
    (logger : Logger) (files : filesystem) (df : IndexedFrame) :
  Str.contains Str.slash r_uid = false →
  get_spec_handler r_uid = inr h →
  coherent files col datum_cache →
  h5_read_frame files (Str.format_h5 col r_uid) = inr df →
  Some d_uid ∉ if_index df →
  ret_value (retrieve col (Str.format_slash r_uid d_uid) datum_cache
               get_spec_handler logger files)
  = inl (KeyError d_uid).
Proof.
  intros Huid Hh Hco Hread Hd. rewrite retrieve_value_coherent by done.
  unfold retrieve_uncached, Str.format_slash.
  rewrite StrFacts.contains_app, StrFacts.partition_app by done. simpl.
  rewrite Hh. simpl. rewrite Hread. simpl.
  unfold loc_dict. by rewrite label_count_absent.
Qed.

Lemma retrieve_unknown_local_id_witness :
  ret_value (retrieve "db" "R/zz" Sample.cold Sample.get_spec_handler ()
               Sample.two_rows)
  = inl (KeyError "zz").
Proof.
  apply (retrieve_unknown_local_id _ _ _ "db" "R" "zz" Sample.cold
           Sample.get_spec_handler Sample.echo () Sample.two_rows
           (mkIndexedFrame [Some "u0"; Some "u00"] {[ "v" := [Num 10; Num 20] ]})).
  - reflexivity.
  - reflexivity.
  - by apply coherent_empty.
  - vm_compute. reflexivity.
  - vm_compute. intros H. by repeat (apply elem_of_cons in H as [H|H]; [done|]);
      apply elem_of_nil in H.
Defined.

(** ** Cold and warm cache *)



(** ** Incremental insertion *)

Section InsertFacts.

Variable uuid4 : nat → string.
Context {ResourceCol KnownSpec : Type}.
Variable K : gset string.
Hypothesis K_plain : "datum_id" ∉ K.

Lemma column_of_snoc k (rows : list kwargs) kw :
  column_of k (rows ++ [kw]) = column_of k rows ++ [default NaN (kw !! k)].
Proof. unfold column_of. by rewrite fmap_app. Qed.

(** Appending a row over the same keys to the container of [rows] gives
    the container of [rows ++ [kw]]. *)
Lemma extend_container (rows : list kwargs) ids d_id (kw : kwargs) :
  rows ≠ [] → same_keys K rows → dom kw = K →
  extend d_id kw (container (frame_of_records rows) ids)
  = container (frame_of_records (rows ++ [kw])) (ids ++ [d_id]).
Proof.
  intros Hne Hrows Hkw.
  assert (keys_of rows = K) as HK by by apply keys_of_uniform.
  assert (keys_of (rows ++ [kw]) = K) as HK'.
  { apply keys_of_uniform; [by destruct rows|].
    apply Forall_app. split; [done|]. by apply Forall_singleton. }
  apply map_eq. intros k. unfold extend, container, appended.
  rewrite map_lookup_imap.
  destruct (decide (k = "datum_id")) as [->|Hk].
  - rewrite !lookup_insert_eq. simpl. by rewrite fmap_app.
  - rewrite !lookup_insert_ne, !frame_columns_lookup, HK, HK' by done.
    case_decide as HkK; [|done]. simpl. rewrite column_of_snoc.
    rewrite <- Hkw in HkK. apply elem_of_dom in HkK as [v Hv].
    by rewrite Hv.
Qed.

(** One [insert_datum] on a resource holding [rows]: it returns the datum
    id made of the next identifier and leaves the resource holding
    [rows ++ [kw]]. *)
Lemma insert_datum_step datum_col res did (kw : kwargs)
    (ks : KnownSpec) (rc : ResourceCol) ids rows w :
  let r := doc_or_uid_to_uid res in
  let d_id := uuid4 (uuid_next w) in
  materialized_as (fs w !! h5_path datum_col r) ids rows →
  same_keys K rows → dom kw = K →
  ∃ files',
    insert_datum uuid4 datum_col res did kw ks rc w
    = Ok (mkDatum r (Str.format_slash r d_id) kw)
         (mkWorld files' (S (uuid_next w)))
    ∧ materialized_as (files' !! h5_path datum_col r)
        (ids ++ [d_id]) (rows ++ [kw]).
Proof.
  intros r d_id Hmat Hrows Hkw.
  assert (kw !! "datum_id" = None) as Hplain.
  { apply not_elem_of_dom. by rewrite Hkw. }
  destruct rows as [|row rows].
  - destruct Hmat as [Hnone ->]. eexists. split.
    + by apply insert_datum_bulk_run.
    + simpl. by rewrite lookup_insert_eq.
  - destruct Hmat as [Hsome Hlen].
    assert (keys_of (row :: rows) = K) as HK by by apply keys_of_uniform.
    eexists. split.
    + apply insert_datum_append_run; [done| |done|].
      * unfold container. rewrite lookup_insert_eq. by eexists.
      * unfold container. rewrite dom_insert_L. intros k Hk.
        apply elem_of_union_r, elem_of_dom.
        rewrite frame_columns_lookup, HK, decide_True by by rewrite <- Hkw.
        by eexists.
    + rewrite lookup_insert_eq, extend_container by done.
      split; [done|]. rewrite !length_app, Hlen. done.
Qed.

(** [N] calls in a row. *)
Lemma insert_datums_run datum_col res (calls : list (string * kwargs))
    (ks : KnownSpec) (rc : ResourceCol) ids rows w :
  let r := doc_or_uid_to_uid res in
  let d_ids := drawn uuid4 (uuid_next w) (length calls) in
  materialized_as (fs w !! h5_path datum_col r) ids rows →
  same_keys K rows → same_keys K calls.*2 →
  ∃ files',
    insert_datums uuid4 datum_col res calls ks rc w
    = Ok (zip_with (λ d_id c, mkDatum r (Str.format_slash r d_id) c.2)
                   d_ids calls)
         (mkWorld files' (uuid_next w + length calls))
    ∧ materialized_as (files' !! h5_path datum_col r)
        (ids ++ d_ids) (rows ++ calls.*2).
Proof.
  intros r. revert ids rows w.
  induction calls as [|[did kw] calls IH]; intros ids rows [files n];
    simpl; intros Hmat Hrows Hcalls.
  - exists files. unfold drawn. simpl.
    rewrite Nat.add_0_r, !(right_id_L [] (++)). done.
  - apply Forall_cons in Hcalls as [Hkw Hcalls].
    destruct (insert_datum_step datum_col res did kw ks rc ids rows
                (mkWorld files n) Hmat Hrows Hkw) as (files1 & Hrun & Hmat1).
    destruct (IH (ids ++ [uuid4 n]) (rows ++ [kw]) (mkWorld files1 (S n)))
      as (files2 & Hrun2 & Hmat2); [done| |done|].
    { apply Forall_app. split; [done|]. by apply Forall_singleton. }
    exists files2. split.
    + unfold insert_datums in *. simpl. unfold mbind at 1, M_bind at 1.
      simpl in Hrun. rewrite Hrun. unfold mbind at 1, M_bind at 1.
      rewrite Hrun2. simpl. unfold mret, M_ret. do 2 f_equal. lia.
    + simpl in Hmat2. rewrite <- !(assoc_L (++)) in Hmat2. exact Hmat2.
Qed.

End InsertFacts.

(** ** Round trip: insertion, then retrieval *)

Section RoundTrip.

Context {C : Type} `{!DatumCache C}.
Context {R Logger : Type}.

Lemma materialized_as_length o ids (rows : list kwargs) :
  materialized_as o ids rows → length ids = length rows.
Proof. destruct rows; [by intros [_ ->]|by intros [_ ?]]. Qed.

(** Retrieving the [i]-th identifier of a resource that holds [rows]
    under distinct [ids] calls the handler on the [i]-th row. *)
Lemma retrieve_materialized (K : gset string) col r ids (rows : list kwargs)
    i d kw (cache : C) (gsh : string → exn + handler (R:=R)) h
    (lg : Logger) files :
  Str.contains Str.slash r = false →
  "datum_id" ∉ K →
  materialized_as (files !! h5_path col r) ids rows →
  same_keys K rows →
  NoDup ids →
  ids !! i = Some d →
  rows !! i = Some kw →
  gsh r = inr h →
  coherent files col cache →
  ret_value (retrieve col (Str.format_slash r d) cache gsh lg files)
  = h (Scalar <$> kw).
Proof.
  intros Hr HK Hmat Hrows Hnd Hd Hkw Hh Hco.
  rewrite retrieve_value_coherent by done.
  unfold retrieve_uncached, Str.format_slash.
  rewrite StrFacts.contains_app, StrFacts.partition_app by done. simpl.
  rewrite Hh. simpl. unfold h5_read_frame.
  destruct rows as [|row rows]; [done|]. destruct Hmat as [Hfile Hlen].
  unfold h5_path in Hfile. rewrite Hfile.
  rewrite read_container; [|by rewrite (keys_of_uniform K)|done].
  unfold mbind, exn_bind. by rewrite (loc_dict_row K _ _ i d kw).
Qed.

End RoundTrip.

Lemma datum_id_zip_with r (d_ids : list string) (calls : list (string * kwargs)) :
  length d_ids = length calls →
  datum_id <$> zip_with (λ d_id c, mkDatum r (Str.format_slash r d_id) c.2)
                        d_ids calls
  = Str.format_slash r <$> d_ids.
Proof.
  revert calls. induction d_ids as [|x d_ids IH]; intros [|c calls] Hlen;
    try done.
  simpl. f_equal. apply IH. simpl in Hlen. lia.
Qed.



(** ** The two paths of [insert_datum] *)




(** ** Worked examples *)

(** A cache of capacity zero keeps nothing: the second retrieval reads the
    file again and returns the same row. *)
Example retrieve_after_eviction :
  let cold := mkBoundedCache 0 [] in
  let first :=
    retrieve "db" "R/u0" cold Sample.get_spec_handler () Sample.two_rows in
  let second :=
    retrieve "db" "R/u00" (ret_cache first) Sample.get_spec_handler ()
      Sample.two_rows in
  entries (ret_cache first) = []
  ∧ ret_value second = inr {[ "v" := Scalar (Num 20) ]}
  ∧ ret_trace second
    = [EvHandlerLookup "R"; EvCacheGet "R"; EvFileRead "db/R.h5";
       EvCacheSet "R"; EvHandlerCall "R"].
Proof. by vm_compute. Qed.

(** A cache of capacity one serves the second retrieval from memory. *)
Example retrieve_from_bounded_cache :
  let cold := mkBoundedCache 1 [] in
  let first :=
    retrieve "db" "R/u0" cold Sample.get_spec_handler () Sample.two_rows in
  let second :=
    retrieve "db" "R/u00" (ret_cache first) Sample.get_spec_handler ()
      Sample.two_rows in
  ret_value second = inr {[ "v" := Scalar (Num 20) ]}
  ∧ ret_trace second
    = [EvHandlerLookup "R"; EvCacheGet "R"; EvHandlerCall "R"].
Proof. by vm_compute. Qed.

(** Why the round trip asks for a cache that is coherent with the files:
    [insert_datum] does not touch the cache, so an entry filled before an
    insertion does not know the new row. *)
Example entry_filled_before_insert_is_stale :
  let warm :=
    ret_cache (retrieve "db" "R/u0" Sample.cold Sample.get_spec_handler ()
                 (fs Sample.one_row)) in
  match insert_datum Sample.uuid4 "db" (ByUid "R") "y" {[ "v" := Num 20 ]}
          () () Sample.one_row with
  | Ok d w' =>
      datum_id d = "R/u00"
      ∧ ret_value (retrieve "db" (datum_id d) warm Sample.get_spec_handler ()
                     (fs w'))
        = inl (KeyError "u00")
      ∧ ret_value (retrieve "db" (datum_id d) Sample.cold
                     Sample.get_spec_handler () (fs w'))
        = inr {[ "v" := Scalar (Num 20) ]}
  | Raise _ _ => False
  end.
Proof. by vm_compute. Qed.

(** The scenario of the specification: three rows inserted in bulk are
    retrieved as the handler's output on [v=1], [v=2], [v=3]. *)
Example bulk_three_rows :
  match bulk_insert_datum (ResourceCol:=unit) Sample.uuid4 "db" (ByUid "R") []
          (Columns {[ "v" := [Num 1; Num 2; Num 3] ]}) Sample.empty_world with
  | Ok ids w' =>
      ids = ["R/u0"; "R/u00"; "R/u000"]
      ∧ (λ id, ret_value (retrieve "db" id Sample.cold Sample.get_spec_handler
                            () (fs w'))) <$> ids
        = [inr {[ "v" := Scalar (Num 1) ]}; inr {[ "v" := Scalar (Num 2) ]};
           inr {[ "v" := Scalar (Num 3) ]}]
  | Raise _ _ => False
  end.
Proof. by vm_compute. Qed.

(** * Further properties of the module *)

(** ** Frames, rows and containers in general *)

Lemma common_length_all (cols : gmap string (list scalar)) n :
  common_length cols = Some n →
  ∀ k c, cols !! k = Some c → length c = n.
Proof.
  unfold common_length. intros Hn k c Hk.
  destruct (map_to_list cols) as [|[k0 c0] l] eqn:Hl.
  - apply map_to_list_empty_iff in Hl. subst cols. by rewrite lookup_empty in Hk.
  - case_decide as Hall; [|done]. injection Hn as <-. by apply (Hall k c).
Qed.

Lemma common_length_ragged (cols : gmap string (list scalar)) k1 c1 k2 c2 :
  cols !! k1 = Some c1 → cols !! k2 = Some c2 → length c1 ≠ length c2 →
  common_length cols = None.
Proof.
  intros H1 H2 Hne. destruct (common_length cols) as [n|] eqn:Hn; [|done].
  destruct Hne.
  by rewrite (common_length_all cols n Hn k1 c1), (common_length_all cols n Hn k2 c2).
Qed.

Lemma pd_DataFrame_rectangular src table :
  pd_DataFrame src = inr table → rectangular table.
Proof.
  destruct src as [rows|cols]; simpl.
  - intros [= <-] k c. rewrite frame_columns_lookup. simpl.
    case_decide; [|done]. intros [= <-]. apply length_column_of.
  - destruct (common_length cols) as [n|] eqn:Hn; [|done].
    intros [= <-] k c Hk. simpl in *. by eapply common_length_all.
Qed.

Lemma lookup_filled keys (kw : kwargs) k :
  filled keys kw !! k
  = if decide (k ∈ keys) then Some (default NaN (kw !! k)) else None.
Proof.
  unfold filled. apply option_eq. intros c.
  rewrite lookup_set_to_map by (intros ?? _ _ Heq; exact Heq).
  case_decide as Hk; split.
  - intros (k' & _ & [= -> <-]). done.
  - intros [= <-]. by exists k.
  - intros (k' & Hk' & [= -> <-]). done.
  - done.
Qed.

(** A row that has exactly the table's keys is seen as it is. *)
Lemma filled_same keys (kw : kwargs) : dom kw = keys → filled keys kw = kw.
Proof.
  intros <-. apply map_eq. intros k. rewrite lookup_filled.
  case_decide as Hk.
  - apply elem_of_dom in Hk as [v Hv]. by rewrite Hv.
  - by apply not_elem_of_dom in Hk.
Qed.

(** Row [i] of the frame built from row dicts is the [i]-th dict, with
    NaN for the keys it lacks. *)
Lemma table_row_records (rows : list kwargs) i kw :
  rows !! i = Some kw →
  table_row (frame_of_records rows) i = filled (keys_of rows) kw.
Proof.
  intros Hi. apply map_eq. intros k. unfold table_row.
  rewrite lookup_fmap, frame_columns_lookup, lookup_filled.
  case_decide; [|done]. simpl. by rewrite (column_of_lookup k rows i kw).
Qed.

(** A rectangular table written with one identifier per row reads back
    as the frame indexed by the identifiers. *)
Lemma read_container_table (table : DataFrame) (ids : list string) :
  rectangular table →
  df_columns table !! "datum_id" = None →
  length ids = df_len table →
  read_frame (container table ids)
  = inr (mkIndexedFrame (Some <$> ids) (df_columns table)).
Proof.
  intros Hrect Hid Hlen. unfold read_frame, container.
  destruct (common_length_uniform
              (<["datum_id" := Bytes <$> ids]> (df_columns table))
              (df_len table)) as [n ->].
  { intros k c. destruct (decide (k = "datum_id")) as [->|Hne].
    - rewrite lookup_insert_eq. intros [= <-]. by rewrite length_fmap.
    - rewrite lookup_insert_ne by done. apply Hrect. }
  rewrite lookup_insert_eq, delete_insert_eq. f_equal. f_equal.
  - rewrite <- list_fmap_compose. by apply list_fmap_ext.
  - by apply delete_id.
Qed.

(** Selecting the row of the [i]-th of distinct identifiers. *)
Lemma loc_dict_table (table : DataFrame) (ids : list string) i d :
  rectangular table →
  length ids = df_len table →
  NoDup ids →
  ids !! i = Some d →
  loc_dict (mkIndexedFrame (Some <$> ids) (df_columns table)) d
  = inr (Scalar <$> table_row table i).
Proof.
  intros Hrect Hlen Hnd Hi. unfold loc_dict. cbn [if_index if_columns].
  rewrite (label_count_unique d ids i) by done. f_equal.
  apply map_eq. intros k. unfold table_row. rewrite !lookup_fmap.
  destruct (df_columns table !! k) as [col|] eqn:Hk; [|done]. simpl.
  assert (is_Some (col !! i)) as [c Hc].
  { apply lookup_lt_is_Some. rewrite (Hrect k col Hk), <- Hlen.
    by eapply lookup_lt_Some. }
  by rewrite (select_unique d ids col i c), Hc.
Qed.

Lemma loc_dict_unknown (df : IndexedFrame) d :
  Some d ∉ if_index df → loc_dict df d = inl (KeyError d).
Proof. intros Hd. unfold loc_dict. by rewrite label_count_absent. Qed.

Section ContainerFacts.

Context {C : Type} `{!DatumCache C}.
Context {R Logger : Type}.

(** Retrieval from a container that holds [table] under [ids]. *)
Lemma retrieve_uncached_container col r d (table : DataFrame) ids
    (gsh : string → exn + handler (R:=R)) h files :
  Str.contains Str.slash r = false →
  files !! h5_path col r = Some (container table ids) →
  rectangular table →
  df_columns table !! "datum_id" = None →
  length ids = df_len table →
  gsh r = inr h →
  retrieve_uncached col (Str.format_slash r d) gsh files
  = loc_dict (mkIndexedFrame (Some <$> ids) (df_columns table)) d ≫= h.
Proof.
  intros Hr Hfile Hrect Hid Hlen Hh.
  unfold retrieve_uncached, Str.format_slash.
  rewrite StrFacts.contains_app, StrFacts.partition_app by done. simpl.
  rewrite Hh. simpl. unfold h5_read_frame, h5_path in *. rewrite Hfile.
  by rewrite read_container_table.
Qed.

End ContainerFacts.

(** ** Bulk insertion, then retrieval *)

Section BulkFacts.

Variable uuid4 : nat → string.
Context {ResourceCol : Type}.

Lemma bulk_insert_datum_run col res (datum_ids : list string) src table w :
  let r := doc_or_uid_to_uid res in
  let d_ids := drawn uuid4 (uuid_next w) (df_len table) in
  pd_DataFrame src = inr table →
  df_columns table !! "datum_id" = None →
  bulk_insert_datum (ResourceCol:=ResourceCol) uuid4 col res datum_ids src w
  = Ok (Str.format_slash r <$> d_ids)
       (mkWorld (<[h5_path col r := container table d_ids]> (fs w))
                (uuid_next w + df_len table)).
Proof.
  intros r d_ids Hdf Hid. unfold bulk_insert_datum.
  unfold mbind at 1, M_bind at 1, lift. rewrite Hdf.
  unfold mret at 1, M_ret at 1, mbind, M_bind.
  by rewrite bulk_register_run.
Qed.

Lemma length_drawn i n : length (drawn uuid4 i n) = n.
Proof. unfold drawn. by rewrite length_fmap, length_seq. Qed.

End BulkFacts.





(** X3. [bulk_insert_datum] of columns of unequal length raises
    [ValueError] when the frame is built: no identifier is drawn and no
    file is created or truncated. *)
Theorem bulk_insert_datum_ragged
    (uuid4 : nat → string) (ResourceCol : Type)
    (col : string) (res : resource_arg) (datum_ids : list string)
    (cols : gmap string (list scalar)) (k1 k2 : string) (c1 c2 : list scalar)
    (w : world) :
  cols !! k1 = Some c1 →
  cols !! k2 = Some c2 →
  length c1 ≠ length c2 →
  bulk_insert_datum (ResourceCol:=ResourceCol) uuid4 col res datum_ids
    (Columns cols) w
  = Raise ValueError w.
Proof.
  intros H1 H2 Hne. unfold bulk_insert_datum, pd_DataFrame.
  by rewrite (common_length_ragged cols k1 c1 k2 c2).
Qed.

Lemma bulk_insert_datum_ragged_witness :
  bulk_insert_datum (ResourceCol:=unit) Sample.uuid4 "db" (ByUid "R") []
    (Columns {[ "v" := [Num 1; Num 2]; "t" := [Num 7] ]}) Sample.empty_world
  = Raise ValueError Sample.empty_world.
Proof.
  apply (bulk_insert_datum_ragged Sample.uuid4 unit "db" (ByUid "R") []
           {[ "v" := [Num 1; Num 2]; "t" := [Num 7] ]} "v" "t"
           [Num 1; Num 2] [Num 7] Sample.empty_world).
  - vm_compute. reflexivity.
  - vm_compute. reflexivity.
  - simpl. lia.
Defined.

(** ** [insert_datum] off the homogeneous path *)

Section InsertEdgeFacts.

Variable uuid4 : nat → string.
Context {ResourceCol KnownSpec : Type}.

(** An append loop that meets a name missing from the file stops there
    with [KeyError]; until then it has only lengthened datasets the file
    already had, and not the one called [keep]. *)
Lemma append_loop_missing path keep (l : list (string * scalar)) (g : h5file) w :
  fs w !! path = Some g →
  keep ∉ l.*1 →
  (∃ k, k ∈ l.*1 ∧ g !! k = None) →
  ∃ k g',
    k ∈ l.*1 ∧ g !! k = None
    ∧ mapM_ (λ kv, h5_append path kv.1 [kv.2]) l w
      = Raise (KeyError k) (mkWorld (<[path := g']> (fs w)) (uuid_next w))
    ∧ g' !! keep = g !! keep
    ∧ dom g' = dom g.
Proof.
  revert g w. induction l as [|[k1 v1] l IH]; intros g [files n] Hg Hkeep Hmiss.
  - destruct Hmiss as (k & Hk & _). by apply elem_of_nil in Hk.
  - simpl in *. apply not_elem_of_cons in Hkeep as [Hne Hkeep].
    unfold mbind, M_bind, h5_append at 1. simpl. rewrite Hg.
    destruct (g !! k1) as [dset|] eqn:Hk1.
    + unfold put_file. simpl.
      destruct (IH (<[k1 := append dset [v1]]> g)
                  (mkWorld (<[path := <[k1 := append dset [v1]]> g]> files) n))
        as (k & g' & Hk & Hnone & Hrun & Hsame & Hdom).
      * simpl. by rewrite lookup_insert_eq.
      * done.
      * destruct Hmiss as (k & Hk & Hnone).
        apply elem_of_cons in Hk as [->|Hk]; [congruence|].
        exists k. split; [done|]. rewrite lookup_insert_ne; [done|].
        intros ->. congruence.
      * exists k, g'. simpl in Hrun. rewrite insert_insert_eq in Hrun.
        split; [by right|]. split.
        { destruct (decide (k1 = k)) as [->|Hkk].
          - by rewrite lookup_insert_eq in Hnone.
          - by rewrite lookup_insert_ne in Hnone. }
        split; [done|]. split.
        { rewrite Hsame. by rewrite lookup_insert_ne. }
        rewrite Hdom, dom_insert_L. apply set_eq. intros x.
        rewrite elem_of_union, elem_of_singleton. split; [|by right].
        intros [->|?]; [|done]. apply elem_of_dom. by eexists.
    + exists k1, g. split; [by left|]. split; [done|].
      by rewrite insert_id.
Qed.

End InsertEdgeFacts.



(** X5. [insert_datum] on a materialized resource (at least one row,
    columns of one length) with a keyword table that lacks one of the
    container's columns returns normally, but leaves the container with
    columns of unequal length: from then on [retrieve] of any datum id of
    that resource, old or new, raises [ValueError] when it reads the
    container. *)
Theorem insert_datum_fewer_keys
    (uuid4 : nat → string) (ResourceCol KnownSpec : Type)
    (C : Type) `{!DatumCache C} (R Logger : Type)
    (datum_col : string) (res : resource_arg) (did : string)
    (datum_kwargs : kwargs) (known_spec : KnownSpec)
    (resource_col : ResourceCol) (table : DataFrame) (ids : list string)
    (k0 : string) (c0 : list scalar) (w : world) :
  let r := doc_or_uid_to_uid res in
  let p := h5_path datum_col r in
  let d_id := uuid4 (uuid_next w) in
  Str.contains Str.slash r = false →
  fs w !! p = Some (container table ids) →
  rectangular table →
  df_columns table !! "datum_id" = None →
  length ids = df_len table →
  0 < df_len table →
  dom datum_kwargs ⊆ dom (df_columns table) →
  df_columns table !! k0 = Some c0 →
  datum_kwargs !! k0 = None →
  ∃ w',
    insert_datum uuid4 datum_col res did datum_kwargs known_spec
      resource_col w
    = Ok (mkDatum r (Str.format_slash r d_id) datum_kwargs) w'
    ∧ ∀ (cache : C) (get_spec_handler : string → exn + handler (R:=R))
        (h : handler) (logger : Logger) d,
        coherent (fs w') datum_col cache →
        get_spec_handler r = inr h →
        ret_value (retrieve datum_col (Str.format_slash r d) cache
                     get_spec_handler logger (fs w'))
        = inl ValueError.
Proof.
  intros r p d_id Hr Hf Hrect Hid Hlen Hpos Hdom Hk0 Hkw0.
  assert (datum_kwargs !! "datum_id" = None) as Hplain.
  { apply not_elem_of_dom. intros Hin. apply Hdom in Hin.
    by apply not_elem_of_dom in Hid. }
  eexists. split.
  - apply insert_datum_append_run; try done.
    + unfold container. rewrite lookup_insert_eq. by eexists.
    + unfold container. rewrite dom_insert_L. intros k Hk.
      apply elem_of_union_r. by apply Hdom.
  - intros cache gsh h lg d Hco Hh. simpl in *.
    rewrite retrieve_value_coherent by done.
    unfold retrieve_uncached, Str.format_slash.
    rewrite StrFacts.contains_app, StrFacts.partition_app by done. simpl.
    rewrite Hh. simpl. unfold h5_read_frame. fold (h5_path datum_col r).
    fold p. rewrite lookup_insert_eq. unfold read_frame.
    rewrite (common_length_ragged _ "datum_id"
               ((Bytes <$> ids) ++ [Bytes d_id]) k0 c0); [done| | |].
    + unfold extend, container, appended. rewrite map_lookup_imap.
      by rewrite lookup_insert_eq.
    + unfold extend, container, appended. rewrite map_lookup_imap.
      assert (k0 ≠ "datum_id") by congruence.
      rewrite lookup_insert_ne, Hk0 by done. simpl.
      rewrite decide_False, Hkw0 by done. simpl.
      by rewrite (right_id_L [] (++)).
    + rewrite length_app, length_fmap, (Hrect k0 c0 Hk0), Hlen. simpl. lia.
Qed.

Lemma insert_datum_fewer_keys_witness :
  let table := frame_of_records [ {[ "v" := Num 10; "t" := Num 7 ]} ] in
  let w := mkWorld {[ "db/R.h5" := container table ["u0"] ]} 1 in
  ∃ w',
    insert_datum Sample.uuid4 "db" (ByUid "R") "x" {[ "v" := Num 20 ]} () () w
    = Ok (mkDatum "R" (Str.format_slash "R" "u00") {[ "v" := Num 20 ]}) w'
    ∧ ∀ (cache : gmap string IndexedFrame)
        (get_spec_handler : string → exn + handler (R := gmap string pyval))
        (h : handler) (logger : unit) d,
        coherent (fs w') "db" cache →
        get_spec_handler "R" = inr h →
        ret_value (retrieve "db" (Str.format_slash "R" d) cache
                     get_spec_handler logger (fs w'))
        = inl ValueError.
Proof.
  apply (insert_datum_fewer_keys Sample.uuid4 unit unit
           (gmap string IndexedFrame) (gmap string pyval) unit
           "db" (ByUid "R") "x" {[ "v" := Num 20 ]} () ()
           (frame_of_records [ {[ "v" := Num 10; "t" := Num 7 ]} ]) ["u0"]
           "t" [Num 7]
           (mkWorld {[ "db/R.h5" :=
                         container (frame_of_records
                                      [ {[ "v" := Num 10; "t" := Num 7 ]} ])
                                   ["u0"] ]} 1)).
  - reflexivity.
  - vm_compute. reflexivity.
  - apply (pd_DataFrame_rectangular
             (Records [ {[ "v" := Num 10; "t" := Num 7 ]} ])). reflexivity.
  - vm_compute. reflexivity.
  - reflexivity.
  - simpl. lia.
  - apply (bool_decide_unpack _). vm_compute. exact I.
  - vm_compute. reflexivity.
  - vm_compute. reflexivity.
Defined.



(** ** The writers keep to their resource's container *)

Lemma string_length_app (s t : string) :
  String.length (s +:+ t) = String.length s + String.length t.
Proof. induction s as [|c s IH]; simpl; [done|]. by rewrite IH. Qed.

Lemma string_app_inv_head (s t t' : string) : s +:+ t = s +:+ t' → t = t'.
Proof. induction s as [|c s IH]; simpl; [done|]. intros [= H]. by apply IH. Qed.

Lemma string_app_inv_tail (s s' t : string) : s +:+ t = s' +:+ t → s = s'.
Proof.
  revert s'. induction s as [|c s IH]; intros [|c' s'] H.
  - done.
  - apply (f_equal String.length) in H.
    rewrite !string_length_app in H. simpl in H. lia.
  - apply (f_equal String.length) in H.
    rewrite !string_length_app in H. simpl in H. lia.
  - simpl in H. injection H as -> H. f_equal. by apply IH.
Qed.

(** Distinct uids have distinct containers in one directory. *)
Lemma h5_path_inj col r r' : h5_path col r = h5_path col r' → r = r'.
Proof.
  unfold h5_path, Str.format_h5. intros H.
  apply string_app_inv_head in H. injection H as H.
  by apply string_app_inv_tail in H.
Qed.

Section FrameRule.

Variable uuid4 : nat → string.
Context {ResourceCol KnownSpec : Type}.
Variable path : string.

(** A computation that leaves every file but the one at [path] as it
    was and never rewinds the identifier stream, whether it returns or
    raises. *)
Definition keeps_to {A} (m : M A) : Prop :=
  ∀ w, (∀ p', p' ≠ path → fs (world_of (m w)) !! p' = fs w !! p')
       ∧ uuid_next w ≤ uuid_next (world_of (m w)).

Lemma keeps_to_ret {A} (a : A) : keeps_to (mret a).
Proof. by intros w. Qed.

Lemma keeps_to_raise {A} e : keeps_to (raise (A:=A) e).
Proof. by intros w. Qed.

Lemma keeps_to_bind {A B} (m : M A) (f : A → M B) :
  keeps_to m → (∀ a, keeps_to (f a)) → keeps_to (m ≫= f).
Proof.
  intros Hm Hf w. unfold mbind, M_bind. destruct (Hm w) as [H1 H2].
  destruct (m w) as [a w1|e w1]; simpl in *; [|done].
  destruct (Hf a w1) as [H3 H4]. split.
  - intros p' Hp'. by rewrite H3, H1.
  - lia.
Qed.

Lemma keeps_to_put_file f : keeps_to (put_file path f).
Proof.
  intros w. split; [|done]. intros p' Hp'. simpl. by rewrite lookup_insert_ne.
Qed.

Lemma keeps_to_create k v : keeps_to (h5_create_dataset path k v).
Proof.
  intros w. unfold h5_create_dataset.
  destruct (fs w !! path) as [fout|]; [|done].
  destruct (fout !! k); [done|]. apply keeps_to_put_file.
Qed.

Lemma keeps_to_append k data : keeps_to (h5_append path k data).
Proof.
  intros w. unfold h5_append.
  destruct (fs w !! path) as [fout|]; [|done].
  destruct (fout !! k); [|done]. apply keeps_to_put_file.
Qed.

Lemma keeps_to_mapM_ {A} (f : A → M unit) l :
  (∀ a, keeps_to (f a)) → keeps_to (mapM_ f l).
Proof.
  intros Hf. induction l as [|a l IH]; simpl.
  - apply keeps_to_ret.
  - apply keeps_to_bind; [apply Hf|]. by intros _.
Qed.

Lemma keeps_to_uuid : keeps_to (uuid_uuid4 uuid4).
Proof. intros w. split; [done|]. simpl. lia. Qed.

Lemma keeps_to_uuid_n n : keeps_to (uuid_uuid4_n uuid4 n).
Proof.
  induction n as [|n IH]; simpl; [apply keeps_to_ret|].
  apply keeps_to_bind; [apply keeps_to_uuid|]. intros d.
  apply keeps_to_bind; [apply IH|]. intros ds. apply keeps_to_ret.
Qed.

Lemma keeps_to_bulk_register datum_col (rc : option ResourceCol) r table validate :
  path = h5_path datum_col r →
  keeps_to (bulk_register_datum_table uuid4 datum_col rc r table validate).
Proof.
  intros Hpath. unfold bulk_register_datum_table, h5_truncate.
  fold (h5_path datum_col r). rewrite <- Hpath.
  destruct validate; [apply keeps_to_raise|].
  apply keeps_to_bind; [apply keeps_to_uuid_n|]. intros d_ids.
  apply keeps_to_bind; [apply keeps_to_put_file|]. intros _.
  apply keeps_to_bind; [|intros _; apply keeps_to_ret].
  apply keeps_to_mapM_. intros kv. apply keeps_to_create.
Qed.

End FrameRule.



(** ** What a returned datum looks like *)

Section ReturnFacts.

Variable uuid4 : nat → string.
Context {ResourceCol KnownSpec : Type}.

Lemma append_ok_inv path k data u w w' :
  h5_append path k data w = Ok u w' →
  is_Some (fs w' !! path) ∧ uuid_next w' = uuid_next w.
Proof.
  unfold h5_append. destruct (fs w !! path) as [fout|]; [|done].
  destruct (fout !! k); [|done]. intros [= _ <-]. simpl.
  by rewrite lookup_insert_eq.
Qed.

Lemma append_loop_ok_inv path (l : list (string * scalar)) u w w' :
  mapM_ (λ kv, h5_append path kv.1 [kv.2]) l w = Ok u w' →
  is_Some (fs w !! path) →
  is_Some (fs w' !! path) ∧ uuid_next w' = uuid_next w.
Proof.
  revert w. induction l as [|[k v] l IH]; intros w; simpl.
  - by intros [= _ <-].
  - unfold mbind, M_bind.
    destruct (h5_append path k [v] w) as [[] w1|] eqn:H1; [|done].
    apply append_ok_inv in H1 as [Hs Hn]. intros Hrun _.
    destruct (IH w1 Hrun Hs) as [? ?]. split; [done|congruence].
Qed.

End ReturnFacts.

(** X8. Whenever [insert_datum] returns, on either path, the datum it
    returns names the resolved uid as its resource, carries the keyword
    table it was given, and has the datum id [uid/local] with [local] the
    identifier drawn by this call; exactly one identifier was drawn, and
    the resource's container exists afterwards.  If the uid has no
    separator, [resource_given_datum_id] maps the returned datum id back
    to the uid. *)
Theorem insert_datum_returns
    (uuid4 : nat → string) (ResourceCol KnownSpec : Type)
    (datum_col : string) (res : resource_arg) (did : string)
    (datum_kwargs : kwargs) (known_spec : KnownSpec)
    (resource_col : ResourceCol) (w w' : world) (d : Datum) :
  let r := doc_or_uid_to_uid res in
  insert_datum uuid4 datum_col res did datum_kwargs known_spec resource_col w
  = Ok d w' →
  d = mkDatum r (Str.format_slash r (uuid4 (uuid_next w))) datum_kwargs
  ∧ uuid_next w' = S (uuid_next w)
  ∧ is_Some (fs w' !! h5_path datum_col r)
  ∧ (Str.contains Str.slash r = false →
     ∀ (C Logger : Type) (col : string) (datum_cache : C) (logger : Logger),
       resource_given_datum_id col (datum_id d) datum_cache logger = r).
Proof.
  intros r Hrun.
  assert (d = mkDatum r (Str.format_slash r (uuid4 (uuid_next w))) datum_kwargs
          ∧ uuid_next w' = S (uuid_next w)
          ∧ is_Some (fs w' !! h5_path datum_col r)) as (-> & Hn & Hs).
  { unfold insert_datum in Hrun. fold r in Hrun.
    fold (h5_path datum_col r) in Hrun.
    unfold mbind at 1, M_bind at 1, is_file in Hrun.
    unfold mbind at 1, M_bind at 1 in Hrun.
    destruct (bool_decide (is_Some (fs w !! h5_path datum_col r))) eqn:Hex.
    - apply bool_decide_eq_true_1 in Hex.
      unfold mbind at 1, M_bind at 1, uuid_uuid4 in Hrun.
      unfold mbind at 1, M_bind at 1 in Hrun.
      destruct (h5_append _ _ _ _) as [[] w1|] eqn:H1; [|done].
      apply append_ok_inv in H1 as [Hs1 Hn1]. simpl in Hn1.
      unfold mbind at 1, M_bind at 1 in Hrun.
      destruct (mapM_ _ _ w1) as [[] w2|] eqn:H2; [|done].
      apply append_loop_ok_inv in H2 as [Hs2 Hn2]; [|done].
      injection Hrun as <- <-. split; [done|]. split; [congruence|done].
    - destruct (df_columns (frame_of_records [datum_kwargs]) !! "datum_id")
        eqn:Hid.
      + unfold mbind at 1, M_bind at 1 in Hrun.
        rewrite bulk_register_clash in Hrun by by eexists. done.
      + unfold mbind at 1, M_bind at 1 in Hrun.
        rewrite bulk_register_run in Hrun by done. simpl in Hrun.
        injection Hrun as <- <-. simpl. split; [done|].
        split; [lia|]. by rewrite lookup_insert_eq. }
  split; [done|]. split; [done|]. split; [done|].
  intros Hr C Logger col cache lg. simpl.
  unfold resource_given_datum_id, Str.format_slash.
  by rewrite StrFacts.partition_app.
Qed.

Lemma insert_datum_returns_witness :
  let kw : kwargs := {[ "v" := Num 30 ]} in
  let w := mkWorld Sample.two_rows 2 in
  let w' := mkWorld {[ "db/R.h5" := {[ "v" := [Num 10; Num 20; Num 30];
                                       "datum_id" := [Bytes "u0"; Bytes "u00";
                                                      Bytes "u000"] ]} ]} 3 in
  let d := mkDatum "R" "R/u000" kw in
  d = mkDatum "R" (Str.format_slash "R" (Sample.uuid4 2)) kw
  ∧ uuid_next w' = S (uuid_next w)
  ∧ is_Some (fs w' !! h5_path "db" "R")
  ∧ (Str.contains Str.slash "R" = false →
     ∀ (C Logger : Type) (col : string) (datum_cache : C) (logger : Logger),
       resource_given_datum_id col (datum_id d) datum_cache logger = "R").
Proof.
  intros kw w w' d.
  apply (insert_datum_returns Sample.uuid4 unit unit "db" (ByUid "R") "x" kw
           () () w w' d).
  vm_compute. reflexivity.
Defined.

(** ** Iterating over a resource *)

(** The generator over a container that holds [table] under [ids]. *)
Lemma get_datum_by_res_gen_container col r (table : DataFrame) ids files :
  files !! h5_path col r = Some (container table ids) →
  rectangular table →
  df_columns table !! "datum_id" = None →
  length ids = df_len table →
  get_datum_by_res_gen col r files
  = inr (imap (λ i id, mkYieldedDatum (Some id) r (table_row table i)) ids).
Proof.
  intros Hfile Hrect Hid Hlen. unfold get_datum_by_res_gen, h5_read_frame.
  unfold h5_path in Hfile. rewrite Hfile. simpl.
  rewrite read_container_table by done. simpl. f_equal.
  by rewrite imap_fmap.
Qed.

Lemma materialized_as_container o ids (rows : list kwargs) :
  rows ≠ [] → materialized_as o ids rows →
  o = Some (container (frame_of_records rows) ids) ∧ length ids = length rows.
Proof. by destruct rows. Qed.





(** ** Several retrievals through one cache *)

(** X11. Retrievals over unchanging files, each handed the cache the
    previous one left, starting from a cache that is coherent with the
    files (an empty one is): every one of them returns what the uncached
    retrieval of its datum id returns, in whatever order and however
    often ids repeat, and the cache is still coherent at the end. *)
Theorem retrieve_each_uncached
    (C : Type) `{!DatumCache C} (R Logger : Type)
    (col : string) (datum_ids : list string) (datum_cache : C)
    (get_spec_handler : string → exn + handler (R:=R)) (logger : Logger)
    (files : filesystem) :
  coherent files col datum_cache →
  (retrieve_each col datum_ids datum_cache get_spec_handler logger files).1
  = (λ datum_id, retrieve_uncached col datum_id get_spec_handler files)
      <$> datum_ids
  ∧ coherent files col
      (retrieve_each col datum_ids datum_cache get_spec_handler logger files).2.
Proof.
  revert datum_cache.
  induction datum_ids as [|datum_id rest IH]; intros cache Hco; simpl.
  - done.
  - pose proof (retrieve_cache_coherent col datum_id cache get_spec_handler
                  logger files Hco) as Hco'.
    destruct (IH _ Hco') as [IH1 IH2].
    destruct (retrieve_each col rest _ _ _ _) as [vs cache'] eqn:Hrest.
    simpl in *. split; [|done].
    by rewrite retrieve_value_coherent, IH1.
Qed.

Lemma retrieve_each_uncached_witness :
  let ids := ["R/u00"; "nope"; "R/u0"; "R/zz"; "R/u00"] in
  (retrieve_each "db" ids (mkBoundedCache 1 []) Sample.get_spec_handler ()
     Sample.two_rows).1
  = (λ datum_id, retrieve_uncached "db" datum_id Sample.get_spec_handler
                   Sample.two_rows) <$> ids
  ∧ coherent Sample.two_rows "db"
      (retrieve_each "db" ids (mkBoundedCache 1 []) Sample.get_spec_handler ()
         Sample.two_rows).2.
Proof.
  apply (retrieve_each_uncached BoundedCache (gmap string pyval) unit "db"
           ["R/u00"; "nope"; "R/u0"; "R/zz"; "R/u00"] (mkBoundedCache 1 [])
           Sample.get_spec_handler () Sample.two_rows).
  by apply coherent_empty.
Defined.

(** * Properties of [Indexable] *)

Module IndexableFacts.
Import Indexable.

Section WithElements.

Context {A : Type}.
Implicit Types (self : t A) (xs l : list A).

Lemma run_iter_all (remaining computed : list A) :
  run_iter remaining computed
  = (remaining, mk [] (computed ++ remaining)).
Proof.
  revert computed. induction remaining as [|elt rest IH]; intros computed; simpl.
  - by rewrite (right_id_L [] (++)).
  - rewrite IH. by rewrite <- (assoc_L (++)).
Qed.

Lemma list_index_nonneg l (i : Z) :
  (0 ≤ i)%Z →
  list_index l i
  = match l !! Z.to_nat i with
    | Some a => inr a
    | None => inl IndexError
    end.
Proof.
  intros Hi. unfold list_index.
  destruct (Z.ltb_spec i 0) as [?|_]; [lia|].
  destruct (Z.ltb_spec i 0) as [?|_]; [lia|]. simpl.
  destruct (Z.leb_spec (Z.of_nat (length l)) i) as [Hge|Hlt]; [|done].
  rewrite lookup_ge_None_2; [done|lia].
Qed.

(** The indices [first, first+1, ...] of a list, [n] of them. *)
Lemma omap_lookup_run l (first : Z) (n : nat) :
  (0 ≤ first)%Z →
  Z.to_nat first + n ≤ length l →
  omap (λ k : nat, l !! Z.to_nat (first + Z.of_nat k * 1)) (seq 0 n)
  = take n (drop (Z.to_nat first) l).
Proof.
  intros Hfirst. induction n as [|n IH]; intros Hlen.
  - by rewrite take_0.
  - rewrite seq_S, omap_app, IH by lia. simpl.
    destruct (lookup_lt_is_Some_2 l (Z.to_nat first + n)) as [x Hx]; [lia|].
    replace (Z.to_nat (first + Z.of_nat n * 1)) with (Z.to_nat first + n) by lia.
    rewrite Hx. simpl. symmetry. apply take_S_r. by rewrite lookup_drop.
Qed.

(** [l[a:b]] for bounds that are not negative. *)
Lemma list_slice_forward l (a b : Z) :
  (0 ≤ a)%Z → (0 ≤ b)%Z →
  list_slice l (Some a) (Some b) None
  = inr (drop (Z.to_nat a) (take (Z.to_nat b) l)).
Proof.
  intros Ha Hb. unfold list_slice. simpl. f_equal.
  set (len := Z.of_nat (length l)).
  assert (adjust len 1 a = Z.min a len) as ->.
  { unfold adjust. destruct (Z.ltb_spec a 0); [lia|].
    destruct (Z.leb_spec len a); simpl; lia. }
  assert (adjust len 1 b = Z.min b len) as ->.
  { unfold adjust. destruct (Z.ltb_spec b 0); [lia|].
    destruct (Z.leb_spec len b); simpl; lia. }
  assert (slice_count (Z.min a len) (Z.min b len) 1
          = Z.max 0 (Z.min b len - Z.min a len)) as ->.
  { unfold slice_count. simpl.
    destruct (Z.ltb_spec (Z.min a len) (Z.min b len)); [|lia].
    rewrite Z.div_1_r. lia. }
  rewrite omap_lookup_run by (unfold len; lia).
  apply list_eq. intros i.
  rewrite lookup_drop. unfold len.
  destruct (decide (i < Z.to_nat (Z.max 0 (Z.min b (Z.of_nat (length l))
                                          - Z.min a (Z.of_nat (length l))))))
    as [Hi|Hi].
  - rewrite lookup_take_lt, lookup_drop by done.
    rewrite lookup_take_lt by lia. f_equal. lia.
  - rewrite lookup_take_ge by lia. symmetry.
    destruct (decide (Z.to_nat a + i < Z.to_nat b)) as [Hlt|Hge].
    + rewrite lookup_take_lt by done. apply lookup_ge_None_2. lia.
    + apply lookup_take_ge. lia.
Qed.

End WithElements.

End IndexableFacts.



(** X13. No operation of an [Indexable] loses, reorders or recomputes an
    element: after [__getitem__] with any index (int or slice, whether it
    returns or raises), after one [next] and after a full iteration, the
    underlying sequence is the same and what had been computed is a
    prefix of what is computed now. *)
Theorem indexable_keeps_contents (A : Type) (self : Indexable.t A) :
  (∀ idx,
     let self' := (Indexable.__getitem__ idx self).2 in
     Indexable.contents self' = Indexable.contents self
     ∧ Indexable.already_computed self
         `prefix_of` Indexable.already_computed self')
  ∧ (let self' := (Indexable.next self).2 in
     Indexable.contents self' = Indexable.contents self
     ∧ Indexable.already_computed self
         `prefix_of` Indexable.already_computed self')
  ∧ (let self' := (Indexable.__iter__ self).2 in
     Indexable.contents self' = Indexable.contents self
     ∧ Indexable.already_computed self
         `prefix_of` Indexable.already_computed self').
Proof.
  destruct self as [rest done_]. unfold Indexable.contents.
  split; [|split].
  - intros idx. unfold Indexable.__getitem__.
    destruct (Indexable.max_idx idx) as [m|]; simpl; [|done].
    destruct (0 <? _)%Z; simpl; [|done]. split.
    + by rewrite <- (assoc_L (++)), take_drop.
    + by apply prefix_app_r.
  - unfold Indexable.next. simpl. destruct rest as [|elt rest]; simpl; [done|].
    split; [by rewrite <- (assoc_L (++))|by apply prefix_app_r].
  - unfold Indexable.__iter__. rewrite IndexableFacts.run_iter_all. simpl.
    split; [by rewrite (right_id_L [] (++))|by apply prefix_app_r].
Qed.

(** X14. A negative int index never draws from the iterator: it is
    resolved against what happens to be computed already, counting from
    the end of that, and raises [IndexError] when it reaches before its
    start.  On a fresh [Indexable] every negative index raises
    [IndexError], however long the sequence is. *)
Theorem indexable_getitem_negative (A : Type) (self : Indexable.t A) (i : Z) :
  (i < 0)%Z →
  let len := Z.of_nat (length (Indexable.already_computed self)) in
  Indexable.__getitem__ (Indexable.Int i) self
  = (match (if (i + len <? 0)%Z then None
            else Indexable.already_computed self !! Z.to_nat (i + len)) with
     | Some a => inr (Indexable.Elem a)
     | None => inl Indexable.IndexError
     end, self)
  ∧ ∀ xs : list A,
      Indexable.__getitem__ (Indexable.Int i) (Indexable.__init__ xs)
      = (inl Indexable.IndexError, Indexable.__init__ xs).
Proof.
  intros Hi len.
  assert (∀ s : Indexable.t A,
            Indexable.__getitem__ (Indexable.Int i) s
            = (sum_map id Indexable.Elem
                 (Indexable.list_index (Indexable.already_computed s) i), s))
    as Hget.
  { intros s. unfold Indexable.__getitem__. simpl.
    destruct (Z.ltb_spec 0 (i - Z.of_nat (length (Indexable.already_computed s)) + 1));
      [lia|done]. }
  split.
  - rewrite Hget. f_equal. unfold Indexable.list_index. fold len.
    destruct (Z.ltb_spec i 0) as [_|?]; [|lia].
    destruct (Z.ltb_spec (i + len) 0) as [?|Hge]; simpl; [done|].
    destruct (Z.leb_spec len (i + len)) as [?|_]; [lia|].
    by destruct (_ !! _).
  - intros xs. rewrite Hget. simpl. unfold Indexable.list_index. simpl.
    destruct (Z.ltb_spec i 0) as [_|?]; [|lia].
    by destruct (_ || _).
Qed.

Lemma indexable_getitem_negative_witness :
  let self := Indexable.mk [30; 40; 50] [10; 20] in
  let len := Z.of_nat (length (Indexable.already_computed self)) in
  Indexable.__getitem__ (Indexable.Int (-1)) self
  = (match (if (-1 + len <? 0)%Z then None
            else Indexable.already_computed self !! Z.to_nat (-1 + len)) with
     | Some a => inr (Indexable.Elem a)
     | None => inl Indexable.IndexError
     end, self)
  ∧ ∀ xs : list nat,
      Indexable.__getitem__ (Indexable.Int (-1)) (Indexable.__init__ xs)
      = (inl Indexable.IndexError, Indexable.__init__ xs).
Proof.
  apply (indexable_getitem_negative nat (Indexable.mk [30; 40; 50] [10; 20])
           (-1)).
  lia.
Defined.

Lemma indexable_getitem_state {A : Type} (idx : Indexable.index) (m : Z)
    (self : Indexable.t A) :
  Indexable.max_idx idx = Some m → (0 ≤ m)%Z →
  Indexable.already_computed (Indexable.__getitem__ idx self).2
  = take (length (Indexable.already_computed self) `max` (Z.to_nat m + 1))
         (Indexable.contents self).
Proof.
  intros Hm Hpos. destruct self as [rest done_]. unfold Indexable.__getitem__.
  rewrite Hm. simpl. unfold Indexable.contents. simpl.
  destruct (Z.ltb_spec 0 (m - Z.of_nat (length done_) + 1)) as [Hn|Hn]; simpl.
  - set (n := Z.to_nat (m - Z.of_nat (length done_) + 1)).
    assert (length done_ `max` (Z.to_nat m + 1) = length done_ + n) as -> by lia.
    by rewrite take_app_ge, Nat.add_comm, Nat.add_sub by lia.
  - assert (length done_ `max` (Z.to_nat m + 1) = length done_) as -> by lia.
    by rewrite take_app_length.
Qed.




(** * Reading what is not there, and what is cached *)

(** X17. For a resource without container (uid without separator):
    [get_datum_by_res_gen] raises [OSError] for the container's path;
    [retrieve] of any of its datum ids first resolves the handler, and a
    failure there is what it raises, without touching cache or files;
    with a handler and no cache entry it raises the same [OSError],
    leaves the cache holding what it held, and has looked up the handler,
    asked the cache and tried the file, in that order. *)
Theorem readers_unmaterialized
    (C : Type) `{!DatumCache C} (R Logger : Type)
    (col r d : string) (cache : C)
    (get_spec_handler : string → exn + handler (R:=R)) (logger : Logger)
    (files : filesystem) :
  Str.contains Str.slash r = false →
  files !! h5_path col r = None →
  let out := retrieve col (Str.format_slash r d) cache get_spec_handler
               logger files in
  get_datum_by_res_gen col r files = inl (OSError (h5_path col r))
  ∧ (∀ e, get_spec_handler r = inl e →
          out = mkRetrieval (inl e) cache [EvHandlerLookup r])
  ∧ (∀ h, get_spec_handler r = inr h →
          cache_view cache !! r = None →
          ret_value out = inl (OSError (h5_path col r))
          ∧ cache_view (ret_cache out) = cache_view cache
          ∧ ret_trace out
            = [EvHandlerLookup r; EvCacheGet r; EvFileRead (h5_path col r)]).
Proof.
  intros Hr Hnone out. unfold h5_path in *. split; [|split].
  - unfold get_datum_by_res_gen, h5_read_frame. by rewrite Hnone.
  - intros e He. unfold out, retrieve, Str.format_slash.
    rewrite StrFacts.contains_app, StrFacts.partition_app by done. simpl.
    by rewrite He.
  - intros h Hh Hmiss. unfold out, retrieve, Str.format_slash.
    rewrite StrFacts.contains_app, StrFacts.partition_app by done. simpl.
    rewrite Hh.
    pose proof (cache_getitem_value r cache) as Hval.
    pose proof (cache_getitem_view r cache) as Hview.
    destruct (cache_getitem r cache) as [[df|] cache']; simpl in *.
    + congruence.
    + unfold h5_read_frame. by rewrite Hnone.
Qed.

Lemma readers_unmaterialized_witness :
  let out := retrieve "db" (Str.format_slash "S" "u0") (mkBoundedCache 1 [])
               Sample.get_spec_handler () Sample.two_rows in
  get_datum_by_res_gen "db" "S" Sample.two_rows
  = inl (OSError (h5_path "db" "S"))
  ∧ (∀ e, Sample.get_spec_handler "S" = inl e →
          out = mkRetrieval (inl e) (mkBoundedCache 1 []) [EvHandlerLookup "S"])
  ∧ (∀ h, Sample.get_spec_handler "S" = inr h →
          cache_view (mkBoundedCache 1 []) !! "S" = None →
          ret_value out = inl (OSError (h5_path "db" "S"))
          ∧ cache_view (ret_cache out) = cache_view (mkBoundedCache 1 [])
          ∧ ret_trace out
            = [EvHandlerLookup "S"; EvCacheGet "S";
               EvFileRead (h5_path "db" "S")]).
Proof.
  apply (readers_unmaterialized BoundedCache (gmap string pyval) unit "db" "S"
           "u0" (mkBoundedCache 1 []) Sample.get_spec_handler ()
           Sample.two_rows).
  - reflexivity.
  - vm_compute. reflexivity.
Defined.

(** X18. When the cache holds a frame for the resource, [retrieve] does
    not look at the files at all: it selects the row from the cached
    frame and returns the same value whatever the files hold now, reads
    no file, and leaves the cache holding what it held.  A row appended
    after the frame was cached is therefore not found ([KeyError]). *)
Theorem retrieve_cached_ignores_files
    (C : Type) `{!DatumCache C} (R Logger : Type)
    (col r d : string) (cache : C) (df : IndexedFrame)
    (get_spec_handler : string → exn + handler (R:=R)) (h : handler)
    (logger : Logger) (files : filesystem) :
  Str.contains Str.slash r = false →
  get_spec_handler r = inr h →
  cache_view cache !! r = Some df →
  let out := retrieve col (Str.format_slash r d) cache get_spec_handler
               logger files in
  ret_value out = loc_dict df d ≫= h
  ∧ (Some d ∉ if_index df → ret_value out = inl (KeyError d))
  ∧ (∀ path, EvFileRead path ∉ ret_trace out)
  ∧ cache_view (ret_cache out) = cache_view cache.
Proof.
  intros Hr Hh Hhit out.
  assert (∃ cache',
            out = call_handler h df r d cache'
                    [EvHandlerLookup r; EvCacheGet r]
            ∧ cache_view cache' = cache_view cache) as (cache' & -> & Hview).
  { unfold out, retrieve, Str.format_slash.
    rewrite StrFacts.contains_app, StrFacts.partition_app by done. simpl.
    rewrite Hh.
    pose proof (cache_getitem_value r cache) as Hval.
    pose proof (cache_getitem_view r cache) as Hview.
    destruct (cache_getitem r cache) as [[df'|] cache']; simpl in *.
    - exists cache'. split; [|done]. congruence.
    - congruence. }
  split; [apply call_handler_value|]. split; [|split].
  - intros Hd. by rewrite call_handler_value, loc_dict_unknown.
  - intros path. unfold call_handler. destruct (loc_dict df d); simpl.
    + intros Hin. repeat (apply elem_of_cons in Hin as [Hin|Hin]; [done|]).
      by apply elem_of_nil in Hin.
    + intros Hin. repeat (apply elem_of_cons in Hin as [Hin|Hin]; [done|]).
      by apply elem_of_nil in Hin.
  - by rewrite call_handler_cache.
Qed.

Lemma retrieve_cached_ignores_files_witness :
  let df := mkIndexedFrame [Some "u0"] {[ "v" := [Num 10] ]} in
  let cache : gmap string IndexedFrame := {[ "R" := df ]} in
  let out := retrieve "db" (Str.format_slash "R" "u00") cache
               Sample.get_spec_handler () Sample.two_rows in
  ret_value out = loc_dict df "u00" ≫= Sample.echo
  ∧ (Some "u00" ∉ if_index df → ret_value out = inl (KeyError "u00"))
  ∧ (∀ path, EvFileRead path ∉ ret_trace out)
  ∧ cache_view (ret_cache out) = cache_view cache.
Proof.
  apply (retrieve_cached_ignores_files (gmap string IndexedFrame)
           (gmap string pyval) unit "db" "R" "u00"
           {[ "R" := mkIndexedFrame [Some "u0"] {[ "v" := [Num 10] ]} ]}
           (mkIndexedFrame [Some "u0"] {[ "v" := [Num 10] ]})
           Sample.get_spec_handler Sample.echo () Sample.two_rows).
  - reflexivity.
  - reflexivity.
  - vm_compute. reflexivity.
Defined.
